(** * evaluation/plotting_common.py: shared plotting helpers

    A shallow embedding of the helper module of the evaluation pipeline:
    the category palettes, the global style configurator, the axis
    formatter configurator and the byte-count tick formatter.

    Python values are modelled as the interpreter has them:
    - [int] is an unbounded integer ([Z]); [float] is an IEEE 754 binary64
      value, a [spec_float] at precision 53 and maximal exponent 1024 (the
      Standard Library's specification of floating-point arithmetic);
    - a [dict] with string keys is a [gmap string _], and a failed
      subscript raises [KeyError];
    - exceptions are an error monad, [result];
    - the process-wide [rcParams] dictionary of the plotting library is a
      state threaded through [setup_plotting_style]. *)

From Stdlib Require Import ZArith String DecimalString Lia Bool.
From Stdlib Require Import SpecFloat.
From stdpp Require Import gmap strings.

Local Open Scope string_scope.
Local Open Scope Z_scope.

(** ** Exceptions *)

Inductive exn :=
| OverflowError
| ZeroDivisionError
| IndexError
| KeyError (key : string)
| OSError (msg : string).

Inductive result (A : Type) :=
| Ok (a : A)
| Raise (e : exn).
Arguments Ok {A} a.
Arguments Raise {A} e.

#[global] Instance result_ret : MRet result := fun A a => Ok a.
#[global] Instance result_bind : MBind result := fun A B f r =>
  match r with
  | Ok a => f a
  | Raise e => Raise e
  end.

Definition returns {A} (r : result A) : Prop := exists a, r = Ok a.

(** ** Python numbers *)

Definition prec : Z := 53.
Definition emax : Z := 1024.

(** The built-in real number types: [int] and [float]. *)
Inductive number :=
| PyInt (n : Z)
| PyFloat (f : spec_float).

(** A [float] object always holds a well-formed binary64 value. *)
Definition wf_number (x : number) : bool :=
  match x with
  | PyInt _ => true
  | PyFloat f => valid_binary prec emax f
  end.

(** [float(n)]: the nearest double, ties to even; [OverflowError] when the
    integer is too large to convert. *)
Definition float_of_int (n : Z) : result spec_float :=
  match binary_normalize prec emax n 0 false with
  | S754_infinity _ => Raise OverflowError
  | f => Ok f
  end.

(** Mixed comparison of a [float] with an [int] is exact: the two values
    are compared as rationals, no conversion takes place. [None] when the
    float is not a number. *)
Definition float_cmp_int (f : spec_float) (n : Z) : option comparison :=
  match f with
  | S754_nan => None
  | S754_infinity s => Some (if s then Lt else Gt)
  | S754_zero _ => Some (0 ?= n)
  | S754_finite s m e =>
      let v := cond_Zopp s (Zpos m) in
      Some (if 0 <=? e then v * 2 ^ e ?= n else v ?= n * 2 ^ (- e))
  end.

Definition py_cmp (x y : number) : option comparison :=
  match x, y with
  | PyInt a, PyInt b => Some (a ?= b)
  | PyFloat f, PyFloat g => SFcompare f g
  | PyFloat f, PyInt n => float_cmp_int f n
  | PyInt n, PyFloat f => CompOpp <$> float_cmp_int f n
  end.

(** [x < y] *)
Definition py_lt (x y : number) : bool :=
  match py_cmp x y with
  | Some Lt => true
  | _ => false
  end.

(** [x <= y] *)
Definition py_le (x y : number) : bool :=
  match py_cmp x y with
  | Some (Lt | Eq) => true
  | _ => false
  end.

(** An integer as an exact, unrounded binary fraction [n * 2^0]. *)
Definition int_as_ratio (n : Z) : spec_float :=
  match n with
  | Z0 => S754_zero false
  | Zpos p => S754_finite false p 0
  | Zneg p => S754_finite true p 0
  end.

(** [a / b] on two [int]s: the correctly rounded quotient of the exact
    integers. *)
Definition int_true_divide (a b : Z) : result spec_float :=
  if b =? 0 then Raise ZeroDivisionError
  else match SFdiv prec emax (int_as_ratio a) (int_as_ratio b) with
       | S754_infinity _ => Raise OverflowError
       | q => Ok q
       end.

(** [f / g] on two [float]s: IEEE division, except that a zero divisor
    raises. *)
Definition float_div (f g : spec_float) : result spec_float :=
  match g with
  | S754_zero _ => Raise ZeroDivisionError
  | _ => Ok (SFdiv prec emax f g)
  end.

(** [x / y], true division: the result is always a [float]. *)
Definition py_truediv (x y : number) : result spec_float :=
  match x, y with
  | PyInt a, PyInt b => int_true_divide a b
  | PyFloat f, PyInt b => g ← float_of_int b; float_div f g
  | PyInt a, PyFloat g => f ← float_of_int a; float_div f g
  | PyFloat f, PyFloat g => float_div f g
  end.

(** Decimal digits of a natural number. *)
Definition dec (n : Z) : string :=
  NilZero.string_of_uint (N.to_uint (Z.to_N n)).

(** [a / d] rounded to the nearest integer, a tie going to the even one
    ([0 <= a], [0 < d]). *)
Definition round_half_even_div (a d : Z) : Z :=
  let q := a / d in
  let r := a mod d in
  match 2 * r ?= d with
  | Lt => q
  | Gt => q + 1
  | Eq => if Z.even q then q else q + 1
  end.

(** The magnitude [m * 2^e] of a finite float, rounded to an integer. *)
Definition float_round_half_even (m : positive) (e : Z) : Z :=
  if 0 <=? e then Zpos m * 2 ^ e
  else round_half_even_div (Zpos m) (2 ^ (- e)).

Definition sign_str (s : bool) : string := if s then "-" else "".

(** [format(f, ".0f")] on a [float]: the exact binary value is rounded to
    zero decimal places, ties to even; the sign bit is printed even when
    the rounded magnitude is zero. *)
Definition format_float_0f (f : spec_float) : string :=
  match f with
  | S754_nan => "nan"
  | S754_infinity s => sign_str s +:+ "inf"
  | S754_zero s => sign_str s +:+ "0"
  | S754_finite s m e => sign_str s +:+ dec (float_round_half_even m e)
  end.

(** ["{:.0f}".format(x)]: an [int] is converted to [float] first. *)
Definition format_0f (x : number) : result string :=
  match x with
  | PyInt n => f ← float_of_int n; Ok (format_float_0f f)
  | PyFloat f => Ok (format_float_0f f)
  end.

(** ** The byte-count tick formatter *)

Definition bytes_to_human_readable {P : Type} (x : number) (pos : P)
  : result string :=
  if py_lt x (PyInt 1024) then
    s ← format_0f x; Ok (s +:+ "B")
  else if py_lt x (PyInt (1024 ^ 2)) then
    q ← py_truediv x (PyInt 1024);
    s ← format_0f (PyFloat q); Ok (s +:+ "KiB")
  else
    q ← py_truediv x (PyInt (1024 ^ 2));
    s ← format_0f (PyFloat q); Ok (s +:+ "MiB").

(** ** Containers *)

(** [d[k]] on a [dict]: a missing key raises [KeyError]. *)
Definition dict_getitem {V} (d : gmap string V) (k : string) : result V :=
  match d !! k with
  | Some v => Ok v
  | None => Raise (KeyError k)
  end.

(** [l[i]] on a [list]: negative indices count from the end, anything out
    of range raises [IndexError]. *)
Definition list_getitem {A} (l : list A) (i : Z) : result A :=
  let len := Z.of_nat (length l) in
  let j := if i <? 0 then i + len else i in
  if (0 <=? j) && (j <? len) then
    match l !! Z.to_nat j with
    | Some a => Ok a
    | None => Raise IndexError
    end
  else Raise IndexError.

(** ** Category palettes *)

(** A colour is an RGB triple of floats. *)
Definition color : Type := spec_float * spec_float * spec_float.

Section Palette.

(** [seaborn.color_palette(name, n_colors)], the palette generator of the
    plotting library: the list of colours of the named palette. *)
Variable color_palette : string -> nat -> list color.

Definition colors : list color := color_palette "husl" 6.

(** The dictionary display is evaluated once, when the module is loaded;
    each subscript of [colors] may raise. *)
Definition category_colors : result (gmap string color) :=
  c3 ← list_getitem colors 3;
  c0 ← list_getitem colors 0;
  c2 ← list_getitem colors 2;
  Ok (<["round_minus_one" := c2]> (<["round" := c0]> (<["prime" := c3]> ∅))).

End Palette.

Definition category_markers : gmap string string :=
  <["round_minus_one" := "o"]> (<["round" := "x"]> (<["prime" := "*"]> ∅)).

(** The closed set of category labels. *)
Definition category_labels : gset string :=
  {[ "prime"; "round"; "round_minus_one" ]}.

(** ** Global style configuration *)

(** Values stored in the rendering configuration. *)
Inductive rcvalue :=
| VBool (b : bool)
| VNum (x : number)
| VStr (s : string)
| VSeq (l : list string).

(** [rcParams]: the process-wide configuration dictionary.
    [matplotlib.rcParams] and [plt.rcParams] name the same object. *)
Abbreviation rc_params := (gmap string rcvalue).

(** Procedures that read and write the global configuration and may
    raise. *)
Definition Cfg (A : Type) : Type := rc_params -> result (A * rc_params).

#[global] Instance Cfg_ret : MRet Cfg := fun A a rc => Ok (a, rc).
#[global] Instance Cfg_bind : MBind Cfg := fun A B f c rc =>
  match c rc with
  | Ok (a, rc') => f a rc'
  | Raise e => Raise e
  end.

(** [rcParams[k] = v] *)
Definition rc_setitem (k : string) (v : rcvalue) : Cfg unit :=
  fun rc => Ok (tt, <[k := v]> rc).

(** [rcParams.update(d)]: every entry of [d] overwrites. *)
Definition rc_update (d : rc_params) : Cfg unit :=
  fun rc => Ok (tt, d ∪ rc).

Section Style.

(** The style sheets shipped with the plotting library, by name: each is
    a dictionary of configuration entries. *)
Variable style_library : gmap string rc_params.

(** [matplotlib.style.use(name)]: the entries of the named sheet are
    written into [rcParams]; an unknown name raises. *)
Definition style_use (name : string) : Cfg unit :=
  fun rc =>
    match style_library !! name with
    | Some sheet => rc_update sheet rc
    | None => Raise (OSError name)
    end.

Definition setup_plotting_style : Cfg unit :=
  style_use "ggplot" ≫= fun _ =>
  rc_setitem "figure.dpi" (VNum (PyInt 300)) ≫= fun _ =>
  rc_update (<["font.family" := VStr "serif"]>
             (<["text.usetex" := VBool true]> ∅)).

End Style.

(** ** Axis formatters *)

(** A tick formatter maps a tick value and its position to a label.
    [FuncFormatter] wraps a user function, [NullFormatter] labels nothing,
    [OtherFormatter] stands for the formatters the library installs by
    default. *)
Inductive formatter :=
| NullFormatter
| FuncFormatter (func : number -> option Z -> result string)
| OtherFormatter (call : number -> option Z -> result string).

Definition formatter_call (f : formatter) (x : number) (pos : option Z)
  : result string :=
  match f with
  | NullFormatter => Ok ""
  | FuncFormatter func => func x pos
  | OtherFormatter call => call x pos
  end.

Record axis := Axis {
  major_formatter : formatter;
  minor_formatter : formatter;
}.

Definition set_major_formatter (f : formatter) (a : axis) : unit * axis :=
  (tt, {| major_formatter := f; minor_formatter := minor_formatter a |}).

Definition set_minor_formatter (f : formatter) (a : axis) : unit * axis :=
  (tt, {| major_formatter := major_formatter a; minor_formatter := f |}).

(** [minor] is [None] when the argument is left out: it defaults to
    [False]. The axis object is mutated; the final axis is returned along
    with the procedure's result, [None]. *)
Definition setup_bytes_formatters (a : axis) (minor : option bool)
  : unit * axis :=
  let minor := default false minor in
  let '(_, a) := set_major_formatter (FuncFormatter bytes_to_human_readable) a in
  if minor then
    set_minor_formatter (FuncFormatter bytes_to_human_readable) a
  else
    set_minor_formatter NullFormatter a.

(** ** Specification vocabulary *)

(** [n] is the integer nearest to the rational [a / d]; on a tie it is the
    even one. *)
Definition nearest_even (a d n : Z) : Prop :=
  2 * Z.abs (n * d - a) <= d /\
  (2 * Z.abs (n * d - a) = d -> Z.even n = true).

(** The magnitude [m * 2^e] of a finite float as a fraction
    (numerator, denominator). *)
Definition float_frac (m : positive) (e : Z) : Z * Z :=
  if 0 <=? e then (Zpos m * 2 ^ e, 1) else (Zpos m, 2 ^ (- e)).

(** The exact value of a finite number as a fraction. *)
Definition value (x : number) : option (Z * Z) :=
  match x with
  | PyInt n => Some (n, 1)
  | PyFloat (S754_zero _) => Some (0, 1)
  | PyFloat (S754_finite s m e) =>
      let '(a, d) := float_frac m e in Some (cond_Zopp s a, d)
  | PyFloat _ => None
  end.

(** Integers of this magnitude and above round to infinity as doubles:
    the midpoint between the largest double and [2^1024]. *)
Definition overflow_bound : Z := 2 ^ 1024 - 2 ^ 970.

(** The numbers on which every intermediate result of the formatter is
    exact: every [float], and the [int]s of magnitude below [2^53], each of
    which a double holds exactly. *)
Definition in_exact_range (x : number) : bool :=
  match x with
  | PyInt n => Z.abs n <? 2 ^ 53
  | PyFloat _ => true
  end.

(** The numbers the formatter returns on. *)
Definition in_float_range (x : number) : bool :=
  match x with
  | PyInt n => (- overflow_bound <? n) && (n <? overflow_bound * 1024 ^ 2)
  | PyFloat _ => true
  end.

(** The sign printed for a value that compares equal to zero. *)
Definition zero_sign (x : number) : string :=
  match x with
  | PyFloat (S754_zero s) => sign_str s
  | _ => ""
  end.

(** The three-way threshold rule in the specification's words, on the
    exact non-negative value [a / d]: below 1024 the value itself, below
    [1024^2] the value divided by 1024, otherwise the value divided by
    [1024^2]; each rounded to the nearest integer and followed by the unit. *)
Definition spec_label (a d : Z) : string :=
  if a <? 1024 * d then
    dec (round_half_even_div a d) +:+ "B"
  else if a <? 1024 ^ 2 * d then
    dec (round_half_even_div a (1024 * d)) +:+ "KiB"
  else
    dec (round_half_even_div a (1024 ^ 2 * d)) +:+ "MiB".

(** ** Sample inputs *)

(** The doubles 512.0, 1536.0 and 5242880.0. *)
Definition f512 : spec_float := S754_finite false (2 ^ 52) (-43).
Definition f1536 : spec_float := S754_finite false (3 * 2 ^ 51) (-42).
Definition f5242880 : spec_float := S754_finite false (5 * 2 ^ 50) (-30).

(** A palette generator for the examples: [n] distinct colours. *)
Definition sample_palette (name : string) (n : nat) : list color :=
  (fun i => (int_as_ratio (Z.of_nat i), S754_zero false, S754_zero false))
    <$> seq 0 n.

(** A style library for the examples, holding one sheet. *)
Definition sample_style_library : gmap string rc_params :=
  {[ "ggplot" := {[ "axes.grid" := VBool true ]} ]}.

(** ** The parts of a label *)

(** The unit a label ends with. *)
Inductive byte_unit := UnitB | UnitKiB | UnitMiB.

Definition unit_suffix (u : byte_unit) : string :=
  match u with
  | UnitB => "B"
  | UnitKiB => "KiB"
  | UnitMiB => "MiB"
  end.

Definition unit_rank (u : byte_unit) : Z :=
  match u with
  | UnitB => 0
  | UnitKiB => 1
  | UnitMiB => 2
  end.

(** The number and the unit the threshold rule shows for the exact
    non-negative value [a / d]. *)
Definition label_parts (a d : Z) : Z * byte_unit :=
  if a <? 1024 * d then (round_half_even_div a d, UnitB)
  else if a <? 1024 ^ 2 * d then (round_half_even_div a (1024 * d), UnitKiB)
  else (round_half_even_div a (1024 ^ 2 * d), UnitMiB).

(** The double 1023.5. *)
Definition f1023_5 : spec_float := S754_finite false (2047 * 2 ^ 42) (-43).

(** A palette too short for the module to load. *)
Definition short_palette (name : string) (n : nat) : list color :=
  sample_palette name 3.

(** The configuration entries [setup_plotting_style] writes itself. *)
Definition style_keys : gset string :=
  {[ "figure.dpi"; "text.usetex"; "font.family" ]}.

(** * Facts *)

(** Powers of two are positive. *)
Tactic Notation "pow2_pos" constr(e) "as" ident(H) :=
  assert (0 < 2 ^ e) as H by (apply Z.pow_pos_nonneg; lia).
Tactic Notation "pow2_pos" constr(e) :=
  let H := fresh "Hpow" in pow2_pos e as H.

(** ** Rounding a fraction to the nearest integer *)

Lemma round_half_even_div_spec (a d : Z) :
  0 < d -> nearest_even a d (round_half_even_div a d).
Proof.
  intros Hd. unfold nearest_even, round_half_even_div.
  pose proof (Z.div_mod a d ltac:(lia)) as Hdm.
  pose proof (Z.mod_pos_bound a d Hd) as Hr.
  set (q := a / d) in *. set (r := a mod d) in *.
  destruct (Z.compare_spec (2 * r) d) as [He | Hl | Hg].
  - destruct (Z.even q) eqn:Hev.
    + split; [lia | intros _; assumption].
    + split; [lia | intros _].
      rewrite Z.even_add, Hev. reflexivity.
  - split; [lia | lia].
  - split; [lia | lia].
Qed.

Lemma nearest_even_unique (a d n1 n2 : Z) :
  0 < d -> nearest_even a d n1 -> nearest_even a d n2 -> n1 = n2.
Proof.
  intros Hd [H1 E1] [H2 E2].
  assert (Z.abs (n1 - n2) <= 1) as Hclose by nia.
  destruct (Z.eq_dec n1 n2) as [| Hne]; [assumption | exfalso].
  assert (2 * Z.abs (n1 * d - a) = d /\ 2 * Z.abs (n2 * d - a) = d) as [T1 T2] by nia.
  specialize (E1 T1). specialize (E2 T2).
  assert (n1 = n2 + 1 \/ n2 = n1 + 1) as [-> | ->] by lia.
  - rewrite Z.even_add, E2 in E1. discriminate.
  - rewrite Z.even_add, E1 in E2. discriminate.
Qed.

Lemma round_half_even_div_exact (q d : Z) :
  0 < d -> round_half_even_div (q * d) d = q.
Proof.
  intros Hd. unfold round_half_even_div.
  rewrite Z.div_mul, Z.mod_mul by lia.
  destruct (Z.compare_spec (2 * 0) d); lia.
Qed.

Lemma round_half_even_div_scale (a d c : Z) :
  0 < d -> 0 < c ->
  round_half_even_div (a * c) (d * c) = round_half_even_div a d.
Proof.
  intros Hd Hc. unfold round_half_even_div.
  rewrite Z.div_mul_cancel_r by lia.
  rewrite Z.mul_mod_distr_r by lia.
  replace (2 * (a mod d * c)) with (2 * (a mod d) * c) by lia.
  destruct (Z.compare_spec (2 * (a mod d) * c) (d * c)),
    (Z.compare_spec (2 * (a mod d)) d); try reflexivity; nia.
Qed.

(** ** Binary64 rounding *)

Lemma digits2_pos_bounds (p : positive) :
  2 ^ (Zpos (digits2_pos p) - 1) <= Zpos p < 2 ^ Zpos (digits2_pos p).
Proof.
  induction p as [p IH | p IH |]; cbn [digits2_pos].
  - rewrite Pos2Z.inj_succ.
    replace (Z.succ (Zpos (digits2_pos p)) - 1) with (Z.succ (Zpos (digits2_pos p) - 1)) by lia.
    rewrite !Z.pow_succ_r by lia. lia.
  - rewrite Pos2Z.inj_succ.
    replace (Z.succ (Zpos (digits2_pos p)) - 1) with (Z.succ (Zpos (digits2_pos p) - 1)) by lia.
    rewrite !Z.pow_succ_r by lia. lia.
  - cbn. lia.
Qed.

Lemma digits2_pos_unique (p : positive) (d : Z) :
  2 ^ (d - 1) <= Zpos p < 2 ^ d -> Zpos (digits2_pos p) = d.
Proof.
  intros [Hlo Hhi].
  pose proof (digits2_pos_bounds p) as [Blo Bhi].
  assert (0 < d) as Hd.
  { destruct (Z.lt_trichotomy d 0) as [Hn | [-> | Hp]];
      [rewrite Z.pow_neg_r in Hhi by lia | change (2 ^ 0) with 1 in Hhi |]; lia. }
  destruct (Z.lt_trichotomy (Zpos (digits2_pos p)) d) as [Hlt | [Heq | Hgt]];
    [ | assumption | ].
  - assert (2 ^ Zpos (digits2_pos p) <= 2 ^ (d - 1))
      by (apply Z.pow_le_mono_r; lia). lia.
  - assert (2 ^ d <= 2 ^ (Zpos (digits2_pos p) - 1))
      by (apply Z.pow_le_mono_r; lia). lia.
Qed.

(** SpecFloat.iter_pos is plain iteration *)
Lemma iter_pos_nat {A} (f : A -> A) (p : positive) (x : A) :
  SpecFloat.iter_pos f p x = Nat.iter (Pos.to_nat p) f x.
Proof.
  revert x. induction p as [p IH | p IH |]; intros x; cbn [SpecFloat.iter_pos].
  - rewrite !IH, Pos2Nat.inj_xI.
    replace (S (2 * Pos.to_nat p))%nat with (Pos.to_nat p + (Pos.to_nat p + 1))%nat by lia.
    rewrite !Nat.iter_add. reflexivity.
  - rewrite !IH, Pos2Nat.inj_xO.
    replace (2 * Pos.to_nat p)%nat with (Pos.to_nat p + Pos.to_nat p)%nat by lia.
    rewrite Nat.iter_add. reflexivity.
  - reflexivity.
Qed.

Lemma shr_1_m (mrs : shr_record) :
  0 <= shr_m mrs ->
  shr_m (shr_1 mrs) = shr_m mrs / 2 /\ shr_r (shr_1 mrs) = Z.odd (shr_m mrs).
Proof.
  destruct mrs as [m r s]. cbn [shr_m]. intros Hm.
  destruct m as [| [p | p |] | p]; cbn [shr_1 shr_m shr_r]; try lia.
  - split; reflexivity.
  - split; [| reflexivity]. rewrite Pos2Z.inj_xI.
    apply (Z.div_unique _ _ _ 1); lia.
  - split; [| reflexivity]. rewrite Pos2Z.inj_xO.
    apply (Z.div_unique _ _ _ 0); lia.
  - split; reflexivity.
Qed.

Lemma shr_iter (n : nat) (mrs : shr_record) :
  0 <= shr_m mrs ->
  let mrs' := Nat.iter (S n) shr_1 mrs in
  shr_m mrs' = shr_m mrs / 2 ^ Z.of_nat (S n) /\
  shr_r mrs' = Z.testbit (shr_m mrs) (Z.of_nat n).
Proof.
  intros Hm. induction n as [| n IH].
  - cbn [Nat.iter nat_rect]. destruct (shr_1_m mrs Hm) as [H1 H2]. cbn zeta.
    change (Nat.iter 1 shr_1 mrs) with (shr_1 mrs).
    rewrite H1, H2. split; [reflexivity |].
    symmetry. apply Z.bit0_odd.
  - cbn zeta in *. destruct IH as [IH1 IH2].
    change (Nat.iter (S (S n)) shr_1 mrs) with (shr_1 (Nat.iter (S n) shr_1 mrs)).
    assert (0 <= shr_m (Nat.iter (S n) shr_1 mrs)) as Hpos.
    { rewrite IH1. apply Z.div_pos; [assumption | apply Z.pow_pos_nonneg; lia]. }
    destruct (shr_1_m _ Hpos) as [H1 H2]. rewrite H1, H2, IH1. split.
    + rewrite Z.div_div by (try apply Z.pow_pos_nonneg; lia).
      f_equal. rewrite (Nat2Z.inj_succ (S n)), Z.pow_succ_r by lia. lia.
    + rewrite Z.testbit_odd, Z.shiftr_div_pow2 by lia. reflexivity.
Qed.

Lemma fexp64 (e : Z) : fexp 53 1024 e = Z.max (e - 53) (-1074).
Proof. reflexivity. Qed.

Lemma round_exact (s : bool) (m : positive) (ex : Z) :
  Zpos (digits2_pos m) = 53 -> -1074 <= ex ->
  binary_round_aux 53 1024 s (Zpos m) ex loc_Exact =
  if ex <=? 971 then S754_finite s m ex else S754_infinity s.
Proof.
  intros Hd Hex.
  assert (shr_fexp 53 1024 (Zpos m) ex loc_Exact
          = (Build_shr_record (Zpos m) false false, ex)) as Hshr.
  { unfold shr_fexp. cbn [Zdigits2]. rewrite Hd, fexp64.
    replace (Z.max (53 + ex - 53) (-1074) - ex) with 0 by lia. reflexivity. }
  unfold binary_round_aux. rewrite Hshr. cbn [shr_m loc_of_shr_record round_nearest_even].
  rewrite Hshr. cbn [shr_m]. reflexivity.
Qed.

Lemma round_shift (s : bool) (m : positive) (ex t : Z) (lx : location) :
  Zpos (digits2_pos m) = 53 + t -> 1 <= t -> -1074 <= ex ->
  let M := Zpos m / 2 ^ t in
  exists M',
    M <= M' <= M + 1 /\
    (Z.testbit (Zpos m) (t - 1) = false -> M' = M) /\
    (Z.testbit (Zpos m) (t - 1) = true -> Z.odd M = true -> M' = M + 1) /\
    binary_round_aux 53 1024 s (Zpos m) ex lx =
    if M' <? 2 ^ 53 then
      if ex + t <=? 971 then S754_finite s (Z.to_pos M') (ex + t)
      else S754_infinity s
    else
      if ex + t + 1 <=? 971 then S754_finite s (2 ^ 52)%positive (ex + t + 1)
      else S754_infinity s.
Proof.
  intros Hd Ht Hex M.
  destruct t as [| tp |]; try lia.
  set (rec0 := shr_record_of_loc (Zpos m) lx).
  set (rec1 := SpecFloat.iter_pos shr_1 tp rec0).
  assert (shr_m rec0 = Zpos m) as Hm0 by (unfold rec0; destruct lx as [|[]]; reflexivity).
  assert (shr_fexp 53 1024 (Zpos m) ex lx = (rec1, ex + Zpos tp)) as Hshr.
  { unfold shr_fexp. cbn [Zdigits2]. rewrite Hd, fexp64.
    replace (Z.max (53 + Zpos tp + ex - 53) (-1074) - ex) with (Zpos tp) by lia.
    reflexivity. }
  assert (shr_m rec1 = M /\ shr_r rec1 = Z.testbit (Zpos m) (Zpos tp - 1)) as [HM Hr].
  { unfold rec1. rewrite iter_pos_nat.
    destruct (Pos2Nat.is_succ tp) as [n Hn]. rewrite Hn.
    destruct (shr_iter n rec0) as [H1 H2]; [rewrite Hm0; lia |].
    cbn zeta in H1, H2. rewrite H1, H2, Hm0.
    assert (Z.of_nat (S n) = Zpos tp) as Hz by (rewrite <- Hn; apply positive_nat_Z).
    rewrite Hz. split; [reflexivity |]. f_equal. lia. }
  pose proof (digits2_pos_bounds m) as [Blo Bhi]. rewrite Hd in Blo, Bhi.
  assert (2 ^ 52 <= M < 2 ^ 53) as HMb.
  { unfold M.
    replace (53 + Zpos tp - 1) with (52 + Zpos tp) in Blo by lia.
    rewrite Z.pow_add_r in Blo, Bhi by lia.
    assert (0 < 2 ^ Zpos tp) by (apply Z.pow_pos_nonneg; lia).
    split.
    - apply Z.div_le_lower_bound; lia.
    - apply Z.div_lt_upper_bound; lia. }
  set (M' := round_nearest_even (shr_m rec1) (loc_of_shr_record rec1)).
  assert (M <= M' <= M + 1 /\
          (shr_r rec1 = false -> M' = M) /\
          (shr_r rec1 = true -> Z.odd M = true -> M' = M + 1)) as (HM'b & HM'f & HM't).
  { unfold M'. rewrite HM. destruct rec1 as [m1 r1 s1]. cbn [shr_r shr_m] in *.
    destruct r1, s1; cbn [loc_of_shr_record round_nearest_even].
    - repeat split; intros; lia.
    - rewrite <- Z.negb_odd. destruct (Z.odd M); cbn [negb].
      + repeat split; intros; try lia; discriminate.
      + repeat split; intros; try lia; discriminate.
    - repeat split; intros; try lia; discriminate.
    - repeat split; intros; try lia; discriminate. }
  exists M'. rewrite <- Hr. repeat split; try tauto; try lia.
  unfold binary_round_aux. rewrite Hshr. fold M'.
  change (2 ^ 53) with 9007199254740992 in *.
  change (2 ^ 52) with 4503599627370496 in *.
  destruct (Z.ltb_spec M' 9007199254740992) as [Hlt | Hge].
  - destruct M' as [| p' |] eqn:EM'; try lia.
    assert (Zpos (digits2_pos p') = 53) as Hd'.
    { apply digits2_pos_unique. change (2 ^ (53 - 1)) with 4503599627370496.
      change (2 ^ 53) with 9007199254740992. lia. }
    unfold shr_fexp. cbn [Zdigits2 shr_record_of_loc]. rewrite Hd', fexp64.
    replace (Z.max (53 + (ex + Zpos tp) - 53) (-1074) - (ex + Zpos tp)) with 0 by lia.
    cbn [shr shr_m]. reflexivity.
  - assert (M' = 9007199254740992) as -> by lia.
    unfold shr_fexp. cbn [Zdigits2 shr_record_of_loc].
    change (Zpos (digits2_pos 9007199254740992)) with 54. rewrite fexp64.
    replace (Z.max (54 + (ex + Zpos tp) - 53) (-1074) - (ex + Zpos tp)) with 1 by lia.
    cbn [shr SpecFloat.iter_pos shr_1 shr_m].
    replace (ex + Zpos tp + 1 - 0) with (ex + Zpos tp + 1) by lia.
    reflexivity.
Qed.

Lemma Pos_iter_xO (k p : positive) : Zpos (Pos.iter xO p k) = Zpos p * 2 ^ Zpos k.
Proof.
  induction k as [| k IH] using Pos.peano_ind.
  - cbn. lia.
  - rewrite Pos.iter_succ, Pos2Z.inj_xO, IH, Pos2Z.inj_succ, Z.pow_succ_r by lia. lia.
Qed.

Lemma digits2_pos_shift (p q : positive) (k : Z) :
  0 <= k -> Zpos q = Zpos p * 2 ^ k ->
  Zpos (digits2_pos q) = Zpos (digits2_pos p) + k.
Proof.
  intros Hk Hq. apply digits2_pos_unique.
  pose proof (digits2_pos_bounds p) as [Blo Bhi].
  replace (Zpos (digits2_pos p) + k - 1) with (Zpos (digits2_pos p) - 1 + k) by lia.
  rewrite !Z.pow_add_r, Hq by lia.
  pow2_pos k.
  split; [apply Z.mul_le_mono_nonneg_r | apply Z.mul_lt_mono_pos_r]; lia.
Qed.



Lemma round_shift_small (s : bool) (m : positive) (ex t : Z) (lx : location) :
  Zpos (digits2_pos m) = 53 + t -> 1 <= t -> -1074 <= ex ->
  ex + 53 + t <= 1023 ->
  exists m' e', binary_round_aux 53 1024 s (Zpos m) ex lx = S754_finite s m' e'.
Proof.
  intros Hd Ht Hex Hsmall.
  destruct (round_shift s m ex t lx Hd Ht Hex) as (M' & _ & _ & _ & Hres).
  cbn zeta in Hres. rewrite Hres.
  destruct (M' <? 2 ^ 53); rewrite (proj2 (Z.leb_le _ _)) by lia; eauto.
Qed.

(** Rounding an integer of at least 54 digits (exponent 0): it stays in
    range exactly below [overflow_bound]. *)
Lemma round_shift_int (s : bool) (m : positive) (t : Z) (lx : location) :
  Zpos (digits2_pos m) = 53 + t -> 1 <= t ->
  (Zpos m < overflow_bound ->
   exists m' e', binary_round_aux 53 1024 s (Zpos m) 0 lx = S754_finite s m' e') /\
  (overflow_bound <= Zpos m ->
   binary_round_aux 53 1024 s (Zpos m) 0 lx = S754_infinity s).
Proof.
  intros Hd Ht.
  destruct (Z.leb_spec (53 + t) 1023) as [Hsmall | Hbig].
  { split.
    - intros _. apply (round_shift_small s m 0 t lx); lia.
    - intros Hov. exfalso.
      pose proof (digits2_pos_bounds m) as [_ Bhi]. rewrite Hd in Bhi.
      assert (2 ^ (53 + t) <= 2 ^ 1023) by (apply Z.pow_le_mono_r; lia).
      unfold overflow_bound in Hov.
      change (2 ^ 1024) with (2 ^ 54 * 2 ^ 970) in Hov.
      change (2 ^ 1023) with (2 ^ 53 * 2 ^ 970) in *.
      pow2_pos 970.
      set (A := 2 ^ 970) in *.
      change (2 ^ 53) with 9007199254740992 in *.
      change (2 ^ 54) with 18014398509481984 in *. lia. }
  destruct (round_shift s m 0 t lx Hd Ht ltac:(lia)) as (M' & HM'b & HM'f & HM't & Hres).
  cbn zeta in *. rewrite Hres. clear Hres.
  pose proof (digits2_pos_bounds m) as [Blo Bhi]. rewrite Hd in Blo, Bhi.
  set (M := Zpos m / 2 ^ t) in *.
  pow2_pos t as H2t.
  pow2_pos (t - 1) as H2t1.
  assert (2 ^ t = 2 ^ (t - 1) * 2) as Et.
  { replace t with (Z.succ (t - 1)) at 1 by lia. rewrite Z.pow_succ_r; lia. }
  set (X := Zpos m / 2 ^ (t - 1)).
  assert (X = 2 * M + Z.b2z (Z.testbit (Zpos m) (t - 1))) as EX.
  { rewrite Z.testbit_spec' by lia. fold X. unfold M. rewrite Et.
    rewrite <- Z.div_div by lia. fold X. apply Z.div_mod. lia. }
  assert (2 ^ 52 <= M < 2 ^ 53) as HMb.
  { unfold M. replace (53 + t - 1) with (52 + t) in Blo by lia.
    rewrite Z.pow_add_r in Blo, Bhi by lia. split.
    - apply Z.div_le_lower_bound; lia.
    - apply Z.div_lt_upper_bound; lia. }
  assert (X * 2 ^ (t - 1) <= Zpos m < (X + 1) * 2 ^ (t - 1)) as HX.
  { unfold X. pose proof (Z.div_mod (Zpos m) (2 ^ (t - 1))).
    pose proof (Z.mod_pos_bound (Zpos m) (2 ^ (t - 1))). lia. }
  change (2 ^ 53) with 9007199254740992 in *.
  change (2 ^ 52) with 4503599627370496 in *.
  destruct (Z.eqb_spec t 971) as [-> | Hne].
  - (* exactly 1024 digits: overflow iff the rounded mantissa reaches 2^53 *)
    unfold overflow_bound.
    change (971 - 1) with 970 in *.
    change (2 ^ 1024) with (18014398509481984 * 2 ^ 970).
    set (A := 2 ^ 970) in *.
    change (0 + 971 <=? 971) with true. change (0 + 971 + 1 <=? 971) with false.
    cbn iota. split.
    + intros Hlt.
      assert (X < 18014398509481983) as HXlt by nia.
      destruct (Z.testbit (Zpos m) 970) eqn:Hbit; cbn [Z.b2z] in EX.
      * assert (M' <= 9007199254740991) by lia.
        rewrite (proj2 (Z.ltb_lt _ _)) by lia. eauto.
      * rewrite (HM'f eq_refl).
        rewrite (proj2 (Z.ltb_lt _ _)) by lia. eauto.
    + intros Hge.
      assert (18014398509481983 <= X) as HXge by nia.
      destruct (Z.testbit (Zpos m) 970) eqn:Hbit; cbn [Z.b2z] in EX; [| lia].
      assert (M = 9007199254740991) as HM by lia.
      assert (Z.odd M = true) as Hodd by (rewrite HM; reflexivity).
      rewrite (HM't eq_refl Hodd), HM. reflexivity.
  - (* more than 1024 digits *)
    split.
    + intros Hlt. exfalso.
      assert (2 ^ 1024 <= 2 ^ (53 + t - 1)) by (apply Z.pow_le_mono_r; lia).
      unfold overflow_bound in Hlt.
      pow2_pos 970. lia.
    + intros _.
      destruct (M' <? 9007199254740992);
        rewrite (proj2 (Z.leb_gt _ _)) by lia; reflexivity.
Qed.

(** [float(n)] on the magnitude of an integer *)
Lemma binary_round_exact (s : bool) (p : positive) :
  Zpos p < 2 ^ 53 ->
  exists m e, binary_round 53 1024 s p 0 = S754_finite s m e /\
              -52 <= e <= 0 /\ Zpos m = Zpos p * 2 ^ (- e) /\
              Zpos (digits2_pos m) = 53.
Proof.
  intros Hp. unfold binary_round.
  pose proof (digits2_pos_bounds p) as [Blo Bhi].
  set (d := Zpos (digits2_pos p)) in *.
  assert (1 <= d <= 53) as Hd.
  { split; [unfold d; lia |].
    destruct (Z.leb_spec d 53) as [|Hgt]; [assumption | exfalso].
    assert (2 ^ 53 <= 2 ^ (d - 1)) by (apply Z.pow_le_mono_r; lia). lia. }
  rewrite fexp64. replace (Z.max (d + 0 - 53) (-1074)) with (d - 53) by lia.
  unfold shl_align.
  destruct (d - 53 - 0) as [| q | q] eqn:Eq; try lia.
  - rewrite round_exact by (fold d; lia).
    exists p, 0. cbn. repeat split; lia.
  - assert (Zpos (Pos.iter xO p q) = Zpos p * 2 ^ Zpos q) as Hm by apply Pos_iter_xO.
    assert (Zpos (digits2_pos (Pos.iter xO p q)) = 53) as Hd'.
    { rewrite (digits2_pos_shift p _ (Zpos q)) by (try assumption; lia). fold d. lia. }
    rewrite round_exact by (try assumption; lia).
    rewrite (proj2 (Z.leb_le _ _)) by lia.
    exists (Pos.iter xO p q), (d - 53). repeat split; try lia.
    rewrite Hm. f_equal. f_equal. lia.
Qed.

Lemma binary_round_large (s : bool) (p : positive) :
  2 ^ 53 <= Zpos p ->
  (Zpos p < overflow_bound ->
   exists m e, binary_round 53 1024 s p 0 = S754_finite s m e) /\
  (overflow_bound <= Zpos p ->
   binary_round 53 1024 s p 0 = S754_infinity s).
Proof.
  intros Hp. unfold binary_round.
  pose proof (digits2_pos_bounds p) as [Blo Bhi].
  set (d := Zpos (digits2_pos p)) in *.
  assert (54 <= d) as Hd.
  { destruct (Z.leb_spec 54 d) as [|Hlt]; [assumption | exfalso].
    assert (2 ^ d <= 2 ^ 53) by (apply Z.pow_le_mono_r; unfold d; lia). lia. }
  rewrite fexp64. replace (Z.max (d + 0 - 53) (-1074)) with (d - 53) by lia.
  unfold shl_align.
  destruct (d - 53 - 0) as [| q | q] eqn:Eq; try lia.
  apply (round_shift_int s p (d - 53) loc_Exact); fold d; lia.
Qed.

Lemma SFdiv_core_eq (m1 e1 m2 e2 : Z) :
  let e' := Z.min (fexp 53 1024 (Zdigits2 m1 + e1 - (Zdigits2 m2 + e2))) (e1 - e2) in
  let s := e1 - e2 - e' in
  SFdiv_core_binary 53 1024 m1 e1 m2 e2 =
  ((m1 * 2 ^ s) / m2, e', new_location m2 ((m1 * 2 ^ s) mod m2)).
Proof.
  intros e' s. unfold SFdiv_core_binary. fold e'. fold s.
  assert (0 <= s) as Hs by (unfold s, e'; lia).
  assert (match s with Z0 => m1 | Zpos _ => Z.shiftl m1 s | Zneg _ => 0 end
          = m1 * 2 ^ s) as ->.
  { destruct s; [cbn; lia | apply Z.shiftl_mul_pow2; lia | lia]. }
  unfold Z.div, Z.modulo. destruct (Z.div_eucl (m1 * 2 ^ s) m2). reflexivity.
Qed.

Section IntDivPow2.

Variables (p dv : positive) (k : Z).
Hypothesis Hk : 1 <= k <= 1000.
Hypothesis Hdv : Zpos dv = 2 ^ k.

Lemma digits_dv : Zpos (digits2_pos dv) = k + 1.
Proof.
  apply digits2_pos_unique. rewrite Hdv.
  replace (k + 1 - 1) with k by lia. split; [lia |].
  apply Z.pow_lt_mono_r; lia.
Qed.

Lemma int_div_pow2_exact :
  Zpos p < 2 ^ 53 ->
  exists m e, SFdiv 53 1024 (S754_finite false p 0) (S754_finite false dv 0)
              = S754_finite false m e /\ -1074 <= e /\ e + k <= 0 /\
              Zpos m = Zpos p * 2 ^ (- (e + k)) /\
              Zpos (digits2_pos m) = 53.
Proof.
  intros Hp. unfold SFdiv.
  pose proof (SFdiv_core_eq (Zpos p) 0 (Zpos dv) 0) as Hcore. cbn zeta in Hcore.
  cbn [Zdigits2] in Hcore. rewrite digits_dv, fexp64 in Hcore.
  pose proof (digits2_pos_bounds p) as [Blo Bhi].
  set (d := Zpos (digits2_pos p)) in *.
  assert (1 <= d <= 53) as Hd.
  { split; [unfold d; lia |].
    destruct (Z.leb_spec d 53) as [|Hgt]; [assumption | exfalso].
    assert (2 ^ 53 <= 2 ^ (d - 1)) by (apply Z.pow_le_mono_r; lia). lia. }
  replace (Z.min (Z.max (d + 0 - (k + 1 + 0) - 53) (-1074)) (0 - 0))
    with (d - k - 54) in Hcore by lia.
  replace (0 - 0 - (d - k - 54)) with ((54 - d) + k) in Hcore by lia.
  rewrite Hcore. clear Hcore.
  pow2_pos k as H2k.
  pow2_pos (53 - d) as H2d.
  assert (Zpos p * 2 ^ (54 - d + k) / Zpos dv = Zpos p * 2 ^ (53 - d) * 2) as Hq.
  { rewrite Hdv, Z.pow_add_r, Z.mul_assoc, Z.div_mul by lia.
    replace (54 - d) with (Z.succ (53 - d)) by lia.
    rewrite Z.pow_succ_r by lia. lia. }
  rewrite Hq. clear Hq.
  set (M := Zpos p * 2 ^ (53 - d)).
  assert (2 ^ 52 <= M < 2 ^ 53) as HM.
  { unfold M. split.
    - replace 52 with (d - 1 + (53 - d)) by lia. rewrite Z.pow_add_r by lia.
      apply Z.mul_le_mono_nonneg_r; lia.
    - replace 53 with (d + (53 - d)) at 2 by lia. rewrite Z.pow_add_r by lia.
      apply Z.mul_lt_mono_pos_r; lia. }
  change (2 ^ 52) with 4503599627370496 in HM.
  change (2 ^ 53) with 9007199254740992 in HM.
  destruct M as [| Mp |] eqn:EM; try lia.
  replace (Zpos Mp * 2) with (Zpos (Mp~0)) by lia.
  cbn [xorb].
  assert (Zpos (digits2_pos Mp) = 53) as HdM.
  { apply digits2_pos_unique. change (2 ^ (53 - 1)) with 4503599627370496.
    change (2 ^ 53) with 9007199254740992. lia. }
  destruct (round_shift false (Mp~0) (d - k - 54) 1
              (new_location (Zpos dv) (Zpos p * 2 ^ (54 - d + k) mod Zpos dv)))
    as (M' & _ & HM'f & _ & Hres).
  { cbn [digits2_pos]. rewrite Pos2Z.inj_succ. lia. }
  { lia. }
  { lia. }
  cbn zeta in *. rewrite Hres.
  rewrite HM'f by reflexivity.
  change (2 ^ 1) with 2. rewrite Pos2Z.inj_xO, Z.mul_comm, Z.div_mul by lia.
  change (2 ^ 53) with 9007199254740992.
  rewrite (proj2 (Z.ltb_lt _ _)), (proj2 (Z.leb_le _ _)) by lia.
  exists Mp, (d - k - 54 + 1). cbn [Z.to_pos].
  repeat split; try lia.
  rewrite <- EM. unfold M. f_equal. f_equal. lia.
Qed.

Lemma int_div_pow2_large :
  2 ^ 53 <= Zpos p ->
  (Zpos p < overflow_bound * 2 ^ k ->
   exists m e, SFdiv 53 1024 (S754_finite false p 0) (S754_finite false dv 0)
               = S754_finite false m e) /\
  (overflow_bound * 2 ^ k <= Zpos p ->
   SFdiv 53 1024 (S754_finite false p 0) (S754_finite false dv 0)
   = S754_infinity false).
Proof.
  intros Hp. unfold SFdiv.
  pose proof (SFdiv_core_eq (Zpos p) 0 (Zpos dv) 0) as Hcore. cbn zeta in Hcore.
  cbn [Zdigits2] in Hcore. rewrite digits_dv, fexp64 in Hcore.
  pose proof (digits2_pos_bounds p) as [Blo Bhi].
  set (d := Zpos (digits2_pos p)) in *.
  assert (54 <= d) as Hd.
  { destruct (Z.leb_spec 54 d) as [|Hlt]; [assumption | exfalso].
    assert (2 ^ d <= 2 ^ 53) by (apply Z.pow_le_mono_r; unfold d; lia). lia. }
  pow2_pos k as H2k.
  assert (2 ^ 54 < overflow_bound) as Hob.
  { unfold overflow_bound.
    change (2 ^ 1024) with (2 ^ 54 * 2 ^ 970).
    assert (2 ^ 54 <= 2 ^ 970) by (apply Z.pow_le_mono_r; lia).
    change (2 ^ 54) with 18014398509481984 in *. nia. }
  cbn [xorb]. rewrite Hcore. clear Hcore.
  destruct (Z.leb_spec d (k + 54)) as [Hsmall | Hbig].
  - (* the quotient is scaled up to 54 digits *)
    replace (Z.min (Z.max (d + 0 - (k + 1 + 0) - 53) (-1074)) (0 - 0))
      with (d - k - 54) by lia.
    replace (0 - 0 - (d - k - 54)) with (k + 54 - d) by lia.
    set (q := Zpos p * 2 ^ (k + 54 - d) / Zpos dv).
    pow2_pos (k + 54 - d) as H2s.
    assert (2 ^ 53 <= q < 2 ^ 54) as Hq.
    { unfold q. rewrite Hdv.
      assert (2 ^ (53 + k) = 2 ^ (d - 1) * 2 ^ (k + 54 - d)) as E1
        by (rewrite <- Z.pow_add_r by lia; f_equal; lia).
      assert (2 ^ (k + 54) = 2 ^ d * 2 ^ (k + 54 - d)) as E2
        by (rewrite <- Z.pow_add_r by lia; f_equal; lia).
      split.
      - apply Z.div_le_lower_bound; [lia |].
        rewrite Z.mul_comm, <- Z.pow_add_r, E1 by lia.
        apply Z.mul_le_mono_nonneg_r; lia.
      - apply Z.div_lt_upper_bound; [lia |].
        rewrite <- Z.pow_add_r, E2 by lia.
        apply Z.mul_lt_mono_pos_r; lia. }
    destruct q as [| qp |] eqn:Eq; [change (2 ^ 53) with 9007199254740992 in Hq; lia | |
                                    change (2 ^ 53) with 9007199254740992 in Hq; lia].
    split.
    + intros _. apply (round_shift_small false qp (d - k - 54) 1); try lia.
      apply digits2_pos_unique. exact Hq.
    + intros Hov. exfalso.
      assert (2 ^ d <= 2 ^ (54 + k)) by (apply Z.pow_le_mono_r; lia).
      rewrite Z.pow_add_r in * by lia. nia.
  - (* the quotient already has more than 54 digits *)
    replace (Z.min (Z.max (d + 0 - (k + 1 + 0) - 53) (-1074)) (0 - 0))
      with 0 by lia.
    change (0 - 0 - 0) with 0. rewrite Z.pow_0_r, Z.mul_1_r.
    set (q := Zpos p / Zpos dv).
    assert (2 ^ (d - k - 1) <= q < 2 ^ (d - k)) as Hq.
    { unfold q. rewrite Hdv. split.
      - apply Z.div_le_lower_bound; [lia |].
        rewrite Z.mul_comm, <- Z.pow_add_r by lia.
        replace (d - k - 1 + k) with (d - 1) by lia. lia.
      - apply Z.div_lt_upper_bound; [lia |].
        rewrite <- Z.pow_add_r by lia.
        replace (k + (d - k)) with d by lia. lia. }
    pow2_pos (d - k - 1).
    destruct q as [| qp |] eqn:Eq; try lia.
    destruct (round_shift_int false qp (d - k - 53)
                (new_location (Zpos dv) (Zpos p mod Zpos dv))) as [Hfin Hinf].
    { apply digits2_pos_unique.
      replace (53 + (d - k - 53)) with (d - k) by lia. exact Hq. }
    { lia. }
    rewrite <- Eq in *. split.
    + intros Hlt. apply Hfin. unfold q. rewrite Hdv.
      apply Z.div_lt_upper_bound; lia.
    + intros Hge. apply Hinf. unfold q. rewrite Hdv.
      apply Z.div_le_lower_bound; lia.
Qed.

End IntDivPow2.

(** Dividing a normal double by a power of two shifts its exponent. *)
Lemma float_div_pow2 (s : bool) (m : positive) (e k : Z) :
  Zpos (digits2_pos m) = 53 -> -1073 <= e - k <= 971 ->
  SFdiv 53 1024 (S754_finite s m e) (S754_finite false (2 ^ 52) (k - 52))
  = S754_finite s m (e - k).
Proof.
  intros Hd Hek. unfold SFdiv.
  pose proof (SFdiv_core_eq (Zpos m) e (Zpos (2 ^ 52)) (k - 52)) as Hcore.
  cbn zeta in Hcore. cbn [Zdigits2] in Hcore. rewrite Hd, fexp64 in Hcore.
  change (Zpos (digits2_pos (2 ^ 52))) with 53 in Hcore.
  replace (Z.min (Z.max (53 + e - (53 + (k - 52)) - 53) (-1074)) (e - (k - 52)))
    with (e - k - 1) in Hcore by lia.
  replace (e - (k - 52) - (e - k - 1)) with 53 in Hcore by lia.
  rewrite Hcore. clear Hcore.
  set (lz := new_location _ _). clearbody lz.
  change (2 ^ 53) with (2 * Zpos (2 ^ 52)).
  rewrite Z.mul_assoc, Z.div_mul by lia.
  replace (Zpos m * 2) with (Zpos m~0) by lia.
  destruct (round_shift (xorb s false) (m~0) (e - k - 1) 1 lz)
    as (M' & _ & HM'f & _ & Hres).
  { cbn [digits2_pos]. rewrite Pos2Z.inj_succ. lia. }
  { lia. }
  { lia. }
  cbn zeta in *. rewrite Hres, HM'f by reflexivity.
  change (2 ^ 1) with 2. rewrite Pos2Z.inj_xO, Z.mul_comm, Z.div_mul by lia.
  pose proof (digits2_pos_bounds m) as [_ Bhi]. rewrite Hd in Bhi.
  rewrite (proj2 (Z.ltb_lt _ _)), (proj2 (Z.leb_le _ _)) by lia.
  cbn [Z.to_pos]. rewrite xorb_false_r. f_equal. lia.
Qed.

(** ** Rounding a finite float to an integer *)

Lemma float_frac_pos (m : positive) (e : Z) :
  0 < fst (float_frac m e) /\ 0 < snd (float_frac m e).
Proof.
  unfold float_frac. destruct (0 <=? e) eqn:He; cbn [fst snd].
  - apply Z.leb_le in He.
    pow2_pos e. nia.
  - apply Z.leb_gt in He.
    pow2_pos (- e). lia.
Qed.

(** Formatting a float whose exponent was lowered by [k] rounds the
    original fraction divided by [2^k]. *)
Lemma float_round_half_even_shift (m : positive) (e k : Z) :
  0 <= k ->
  float_round_half_even m (e - k) =
  round_half_even_div (fst (float_frac m e)) (2 ^ k * snd (float_frac m e)).
Proof.
  intros Hk. unfold float_round_half_even, float_frac.
  pow2_pos k as H2k.
  destruct (Z.leb_spec 0 (e - k)) as [Hek | Hek].
  - rewrite (proj2 (Z.leb_le 0 e)) by lia. cbn [fst snd].
    rewrite Z.mul_1_r.
    replace (Zpos m * 2 ^ e) with (Zpos m * 2 ^ (e - k) * 2 ^ k).
    + rewrite round_half_even_div_exact by lia. reflexivity.
    + rewrite <- Z.mul_assoc, <- Z.pow_add_r by lia. do 2 f_equal. lia.
  - destruct (Z.leb_spec 0 e) as [He | He]; cbn [fst snd].
    + rewrite Z.mul_1_r.
      pow2_pos e.
      pow2_pos (- (e - k)).
      replace (2 ^ k) with (2 ^ (- (e - k)) * 2 ^ e)
        by (rewrite <- Z.pow_add_r by lia; f_equal; lia).
      rewrite round_half_even_div_scale by lia. reflexivity.
    + rewrite <- Z.pow_add_r by lia. do 2 f_equal. lia.
Qed.

Lemma float_round_half_even_frac (m : positive) (e : Z) :
  float_round_half_even m e =
  round_half_even_div (fst (float_frac m e)) (snd (float_frac m e)).
Proof.
  pose proof (float_round_half_even_shift m e 0 ltac:(lia)) as H.
  rewrite Z.sub_0_r in H. rewrite H. f_equal.
  change (2 ^ 0) with 1. lia.
Qed.

(** The printed integer is the one nearest to the float's exact value, the
    even one on a tie. *)
Lemma float_round_half_even_spec (m : positive) (e : Z) :
  nearest_even (fst (float_frac m e)) (snd (float_frac m e))
    (float_round_half_even m e).
Proof.
  rewrite float_round_half_even_frac.
  apply round_half_even_div_spec, float_frac_pos.
Qed.

(** A float that holds the integer [N] prints as [N]. *)
Lemma float_round_half_even_int (m : positive) (e N : Z) :
  e <= 0 -> Zpos m = N * 2 ^ (- e) -> float_round_half_even m e = N.
Proof.
  intros He Hm. unfold float_round_half_even.
  pow2_pos (- e).
  destruct (Z.leb_spec 0 e).
  - assert (e = 0) as -> by lia. change (- 0) with 0 in Hm.
    rewrite Hm. lia.
  - rewrite Hm. apply round_half_even_div_exact. lia.
Qed.

(** A float that holds [N / 2^k] exactly prints as [N / 2^k] rounded. *)
Lemma float_round_half_even_quot (m : positive) (e N k : Z) :
  0 < k -> e + k <= 0 -> Zpos m = N * 2 ^ (- (e + k)) ->
  float_round_half_even m e = round_half_even_div N (2 ^ k).
Proof.
  intros Hk He Hm. unfold float_round_half_even.
  pow2_pos (- (e + k)).
  pow2_pos k.
  rewrite (proj2 (Z.leb_gt 0 e)) by lia.
  replace (2 ^ (- e)) with (2 ^ k * 2 ^ (- (e + k)))
    by (rewrite <- Z.pow_add_r by lia; f_equal; lia).
  rewrite Hm. apply round_half_even_div_scale; lia.
Qed.

(** ** Conversion and division on Python numbers *)

Lemma float_of_int_exact (n : Z) :
  n <> 0 -> Z.abs n < 2 ^ 53 ->
  exists m e, float_of_int n = Ok (S754_finite (n <? 0) m e) /\
              -52 <= e <= 0 /\ Zpos m = Z.abs n * 2 ^ (- e) /\
              Zpos (digits2_pos m) = 53.
Proof.
  intros Hn Hlt. unfold float_of_int, binary_normalize, prec, emax.
  destruct n as [| p | p]; [lia | |].
  - destruct (binary_round_exact false p Hlt) as (m & e & -> & H).
    exists m, e. split; [reflexivity | exact H].
  - destruct (binary_round_exact true p Hlt) as (m & e & -> & H).
    exists m, e. split; [reflexivity | exact H].
Qed.

(** [float(n)] returns exactly when the magnitude is below the midpoint
    between the largest double and [2^1024]. *)
Lemma float_of_int_range (n : Z) :
  (Z.abs n < overflow_bound -> returns (float_of_int n)) /\
  (overflow_bound <= Z.abs n -> float_of_int n = Raise OverflowError).
Proof.
  assert (2 ^ 53 < overflow_bound) as Hob.
  { unfold overflow_bound. change (2 ^ 1024) with (2 ^ 54 * 2 ^ 970).
    assert (2 ^ 53 <= 2 ^ 970) by (apply Z.pow_le_mono_r; lia).
    change (2 ^ 54) with 18014398509481984 in *.
    change (2 ^ 53) with 9007199254740992 in *. nia. }
  destruct (Z.eq_dec n 0) as [-> | Hn].
  { split; [intros _; eexists; reflexivity | cbn [Z.abs]; lia]. }
  destruct (Z.lt_ge_cases (Z.abs n) (2 ^ 53)) as [Hs | Hl].
  { split; [| lia]. intros _.
    destruct (float_of_int_exact n Hn Hs) as (m & e & -> & _). eexists; reflexivity. }
  unfold float_of_int, binary_normalize, prec, emax, returns.
  destruct n as [| p | p]; [lia | |]; cbn [Z.abs] in *.
  - destruct (binary_round_large false p Hl) as [Hfin Hinf]. split; intros H.
    + destruct (Hfin H) as (m & e & ->). eexists; reflexivity.
    + rewrite (Hinf H). reflexivity.
  - destruct (binary_round_large true p Hl) as [Hfin Hinf]. split; intros H.
    + destruct (Hfin H) as (m & e & ->). eexists; reflexivity.
    + rewrite (Hinf H). reflexivity.
Qed.

Lemma float_of_int_1024 :
  float_of_int 1024 = Ok (S754_finite false (2 ^ 52) (10 - 52)).
Proof. reflexivity. Qed.

Lemma float_of_int_1024_sq :
  float_of_int (1024 ^ 2) = Ok (S754_finite false (2 ^ 52) (20 - 52)).
Proof. reflexivity. Qed.

(** [n / 2^k] on a positive [int] a double holds exactly: the quotient is
    exact. *)
Lemma int_true_divide_exact (n k : Z) :
  1 <= k <= 1000 -> 0 < n < 2 ^ 53 ->
  exists m e, int_true_divide n (2 ^ k) = Ok (S754_finite false m e) /\
              -1074 <= e /\ e + k <= 0 /\ Zpos m = n * 2 ^ (- (e + k)).
Proof.
  intros Hk [Hn Hlt]. unfold int_true_divide, prec, emax.
  pow2_pos k as H2k.
  rewrite (proj2 (Z.eqb_neq _ _)) by lia.
  destruct n as [| p |]; try lia.
  destruct (2 ^ k) as [| dv |] eqn:Edv; try lia.
  cbn [int_as_ratio].
  destruct (int_div_pow2_exact p dv k Hk (eq_sym Edv) Hlt) as (m & e & -> & H1 & H2 & H3 & _).
  exists m, e. auto.
Qed.

(** [n / 2^k] on a larger [int] returns exactly when the quotient stays
    below the overflow bound. *)
Lemma int_true_divide_range (n k : Z) :
  1 <= k <= 1000 -> 0 < n ->
  (n < overflow_bound * 2 ^ k ->
   exists m e, int_true_divide n (2 ^ k) = Ok (S754_finite false m e)) /\
  (overflow_bound * 2 ^ k <= n ->
   int_true_divide n (2 ^ k) = Raise OverflowError).
Proof.
  intros Hk Hn.
  pow2_pos k as H2k.
  assert (2 ^ 53 < overflow_bound) as Hob.
  { unfold overflow_bound. change (2 ^ 1024) with (2 ^ 54 * 2 ^ 970).
    assert (2 ^ 53 <= 2 ^ 970) by (apply Z.pow_le_mono_r; lia).
    change (2 ^ 54) with 18014398509481984 in *.
    change (2 ^ 53) with 9007199254740992 in *. nia. }
  destruct (Z.lt_ge_cases n (2 ^ 53)) as [Hs | Hl].
  { split; [| nia]. intros _.
    destruct (int_true_divide_exact n k Hk ltac:(lia)) as (m & e & -> & _).
    eauto. }
  unfold int_true_divide, prec, emax.
  rewrite (proj2 (Z.eqb_neq _ _)) by lia.
  destruct n as [| p |]; try lia.
  destruct (2 ^ k) as [| dv |] eqn:Edv; try lia.
  cbn [int_as_ratio].
  destruct (int_div_pow2_large p dv k Hk (eq_sym Edv) Hl) as [Hfin Hinf].
  rewrite Edv in Hfin, Hinf. split; intros H.
  - destruct (Hfin H) as (m & e & ->). eauto.
  - rewrite (Hinf H). reflexivity.
Qed.

(** ** Well-formed doubles *)

(** A well-formed double of magnitude at least 1024 is normal. *)
Lemma valid_normal (s : bool) (m : positive) (e : Z) :
  valid_binary prec emax (S754_finite s m e) = true ->
  1024 * snd (float_frac m e) <= fst (float_frac m e) ->
  Zpos (digits2_pos m) = 53 /\ -42 <= e <= 971.
Proof.
  unfold valid_binary, bounded, canonical_mantissa, prec, emax.
  rewrite andb_true_iff, Z.eqb_eq, Z.leb_le, fexp64.
  intros [Hc He] Hge.
  pose proof (digits2_pos_bounds m) as [Blo Bhi].
  set (d := Zpos (digits2_pos m)) in *.
  assert (d <= 53) as Hd by lia.
  assert (2 ^ d <= 2 ^ 53) as Hpow by (apply Z.pow_le_mono_r; lia).
  assert (-42 <= e) as Hlo.
  { unfold float_frac in Hge. destruct (Z.leb_spec 0 e) as [| Hneg]; [lia |].
    cbn [fst snd] in Hge.
    destruct (Z.leb_spec (-42) e) as [| Hsmall]; [assumption | exfalso].
    assert (2 ^ 43 <= 2 ^ (- e)) by (apply Z.pow_le_mono_r; lia).
    change (2 ^ 43) with 8796093022208 in *.
    change (2 ^ 53) with 9007199254740992 in *. lia. }
  split; [lia | lia].
Qed.

(** ** The formatter on each kind of input *)

Lemma py_lt_int (a b : Z) : py_lt (PyInt a) (PyInt b) = (a <? b).
Proof. unfold py_lt, py_cmp, Z.ltb. destruct (a ?= b); reflexivity. Qed.

Lemma py_lt_float_int (m : positive) (e n : Z) :
  py_lt (PyFloat (S754_finite false m e)) (PyInt n)
  = (fst (float_frac m e) <? n * snd (float_frac m e)).
Proof.
  unfold py_lt, py_cmp, float_cmp_int, float_frac, cond_Zopp.
  destruct (0 <=? e); cbn [fst snd]; rewrite ?Z.mul_1_r; unfold Z.ltb;
    destruct (_ ?= _); reflexivity.
Qed.

Lemma round_half_even_div_1 (n : Z) : round_half_even_div n 1 = n.
Proof.
  rewrite <- (Z.mul_1_r n) at 1. apply round_half_even_div_exact. lia.
Qed.

(** On an [int] a double holds exactly, the formatter computes the
    specification's rule. *)
Lemma label_int_exact {P} (pos : P) (n : Z) :
  0 <= n < 2 ^ 53 ->
  bytes_to_human_readable (PyInt n) pos = Ok (spec_label n 1).
Proof.
  intros [H0 Hlt]. unfold bytes_to_human_readable, spec_label.
  rewrite !py_lt_int, !Z.mul_1_r.
  destruct (Z.ltb_spec n 1024) as [Hb | Hb].
  - destruct (Z.eq_dec n 0) as [-> | Hn]; [reflexivity |].
    destruct (float_of_int_exact n Hn ltac:(lia)) as (m & e & Hf & He & Hm & _).
    unfold format_0f. rewrite Hf. cbn.
    rewrite (proj2 (Z.ltb_ge n 0)) by lia. cbn.
    rewrite (float_round_half_even_int m e n), round_half_even_div_1 by lia.
    reflexivity.
  - destruct (Z.ltb_spec n (1024 ^ 2)) as [Hk | Hk].
    + unfold py_truediv. change 1024 with (2 ^ 10) at 1.
      destruct (int_true_divide_exact n 10 ltac:(lia) ltac:(lia))
        as (m & e & -> & He & Hek & Hm).
      cbn. rewrite (float_round_half_even_quot m e n 10) by lia. reflexivity.
    + unfold py_truediv. change (1024 ^ 2) with (2 ^ 20) at 1.
      destruct (int_true_divide_exact n 20 ltac:(lia) ltac:(lia))
        as (m & e & -> & He & Hek & Hm).
      cbn. rewrite (float_round_half_even_quot m e n 20) by lia. reflexivity.
Qed.

(** A non-negative finite float has its sign bit clear, unless it is a
    zero. *)
Lemma nonneg_finite_sign (s : bool) (m : positive) (e : Z) :
  py_le (PyInt 0) (PyFloat (S754_finite s m e)) = true -> s = false.
Proof.
  destruct s; [| reflexivity]. intros Hle. exfalso. revert Hle.
  unfold py_le, py_cmp, float_cmp_int, cond_Zopp. cbn [fmap option_fmap option_map].
  assert ((if 0 <=? e then Z.opp (Zpos m) * 2 ^ e ?= 0
           else Z.opp (Zpos m) ?= 0 * 2 ^ (- e)) = Lt) as ->.
  { destruct (Z.leb_spec 0 e).
    - apply Z.compare_lt_iff.
      pow2_pos e. nia.
    - reflexivity. }
  discriminate.
Qed.

(** On a well-formed, non-negative, finite [float] the formatter computes
    the specification's rule on the exact value; a negative zero keeps its
    sign. *)
Lemma label_float_exact {P} (pos : P) (f : spec_float) (a d : Z) :
  valid_binary prec emax f = true ->
  py_le (PyInt 0) (PyFloat f) = true ->
  value (PyFloat f) = Some (a, d) ->
  bytes_to_human_readable (PyFloat f) pos
  = Ok (zero_sign (PyFloat f) +:+ spec_label a d).
Proof.
  intros Hv Hnn Hval. destruct f as [s | s | | s m e]; try discriminate.
  - injection Hval as <- <-. destruct s; reflexivity.
  - pose proof (nonneg_finite_sign s m e Hnn) as ->.
    cbn [value] in Hval. pose proof (float_frac_pos m e) as [Ha Hd].
    destruct (float_frac m e) as [a' d'] eqn:Efr. cbn [cond_Zopp fst snd] in *.
    injection Hval as <- <-.
    unfold bytes_to_human_readable, spec_label.
    rewrite !py_lt_float_int, Efr. cbn [fst snd zero_sign].
    destruct (Z.ltb_spec a' (1024 * d')) as [Hb | Hb].
    + unfold format_0f. cbn [mbind result_bind format_float_0f sign_str].
      rewrite float_round_half_even_frac, Efr. reflexivity.
    + destruct (valid_normal false m e Hv) as [Hdig He];
        [rewrite Efr; cbn [fst snd]; lia |].
      destruct (Z.ltb_spec a' (1024 ^ 2 * d')) as [Hk | Hk].
      * unfold py_truediv. rewrite float_of_int_1024.
        cbn [mbind result_bind float_div]. unfold prec, emax.
        rewrite float_div_pow2 by lia.
        cbn [format_0f mbind result_bind format_float_0f sign_str].
        rewrite (float_round_half_even_shift m e 10), Efr by lia. reflexivity.
      * unfold py_truediv. rewrite float_of_int_1024_sq.
        cbn [mbind result_bind float_div]. unfold prec, emax.
        rewrite float_div_pow2 by lia.
        cbn [format_0f mbind result_bind format_float_0f sign_str].
        rewrite (float_round_half_even_shift m e 20), Efr by lia. reflexivity.
Qed.

(** An [int] beyond the doubles' exact range falls in the last branch:
    it is formatted from the rounded quotient, or the division
    overflows. *)
Lemma label_int_large {P} (pos : P) (n : Z) :
  2 ^ 53 <= n ->
  (n < overflow_bound * 1024 ^ 2 ->
   exists m e,
     py_truediv (PyInt n) (PyInt (1024 ^ 2)) = Ok (S754_finite false m e) /\
     bytes_to_human_readable (PyInt n) pos
     = Ok (dec (float_round_half_even m e) +:+ "MiB")) /\
  (overflow_bound * 1024 ^ 2 <= n ->
   bytes_to_human_readable (PyInt n) pos = Raise OverflowError).
Proof.
  intros Hn. unfold bytes_to_human_readable. rewrite !py_lt_int.
  change (2 ^ 53) with 9007199254740992 in Hn.
  rewrite (proj2 (Z.ltb_ge n 1024)) by lia.
  rewrite (proj2 (Z.ltb_ge n (1024 ^ 2))) by (change (1024 ^ 2) with 1048576; lia).
  unfold py_truediv. change (1024 ^ 2) with (2 ^ 20).
  destruct (int_true_divide_range n 20 ltac:(lia) ltac:(lia)) as [Hfin Hinf].
  split; intros H.
  - destruct (Hfin H) as (m & e & ->). exists m, e. split; reflexivity.
  - rewrite (Hinf H). reflexivity.
Qed.

(** A negative [int] takes the first branch: as long as its conversion to
    [float] does not overflow, the rounded double is printed after a minus
    sign. *)
Lemma label_int_negative {P} (pos : P) (n : Z) :
  n < 0 ->
  (- 2 ^ 53 < n ->
   bytes_to_human_readable (PyInt n) pos = Ok ("-" +:+ dec (- n) +:+ "B")) /\
  (- overflow_bound < n -> returns (bytes_to_human_readable (PyInt n) pos)) /\
  (n <= - overflow_bound ->
   bytes_to_human_readable (PyInt n) pos = Raise OverflowError).
Proof.
  intros Hn. unfold bytes_to_human_readable. rewrite py_lt_int.
  rewrite (proj2 (Z.ltb_lt n 1024)) by lia. unfold format_0f.
  destruct (float_of_int_range n) as [Hfin Hinf].
  split; [| split]; intros H.
  - destruct (float_of_int_exact n ltac:(lia) ltac:(lia)) as (m & e & -> & He & Hm & _).
    rewrite (proj2 (Z.ltb_lt n 0)) by lia.
    cbn [mbind result_bind format_float_0f sign_str].
    rewrite (float_round_half_even_int m e (- n)) by lia. reflexivity.
  - destruct (Hfin ltac:(lia)) as [f ->]. eexists. reflexivity.
  - rewrite Hinf by lia. reflexivity.
Qed.

(** * The claims about the palettes, the style and the axis *)

Lemma category_colors_loaded (color_palette : string -> nat -> list color) :
  length (color_palette "husl" 6%nat) = 6%nat ->
  exists c0 c1 c2 c3 c4 c5,
    colors color_palette = [c0; c1; c2; c3; c4; c5] /\
    category_colors color_palette
    = Ok (<["round_minus_one" := c2]> (<["round" := c0]> (<["prime" := c3]> ∅))).
Proof.
  intros Hlen. unfold category_colors, colors.
  destruct (color_palette "husl" 6%nat)
    as [| c0 [| c1 [| c2 [| c3 [| c4 [| c5 [| c6 l]]]]]]]; try discriminate.
  exists c0, c1, c2, c3, c4, c5. split; reflexivity.
Qed.

Lemma three_keys_dom {V} (v1 v2 v3 : V) :
  dom (<["round_minus_one" := v3]> (<["round" := v2]> (<["prime" := v1]> (∅ : gmap string V))))
  = category_labels.
Proof.
  rewrite !dom_insert_L, dom_empty_L. unfold category_labels. set_solver.
Qed.

Lemma dict_getitem_dom {V} (d : gmap string V) (k : string) :
  (k ∈ dom d -> returns (dict_getitem d k)) /\
  (k ∉ dom d -> dict_getitem d k = Raise (KeyError k)).
Proof.
  unfold dict_getitem, returns. rewrite elem_of_dom. split.
  - intros [v ->]. eauto.
  - intros Hn. destruct (d !! k) eqn:E; [| reflexivity].
    exfalso. apply Hn. eauto.
Qed.

(** C4: [category_colors] has exactly the three category labels as keys;
    "prime" is the colour at index 3, "round" the colour at index 0 and
    "round_minus_one" the colour at index 2 of the six-colour "husl"
    palette, generated once when the module is loaded. *)
Theorem category_colors_palette_indices
    (color_palette : string -> nat -> list color) :
  length (color_palette "husl" 6%nat) = 6%nat ->
  exists m,
    category_colors color_palette = Ok m /\
    dom m = category_labels /\
    is_Some (m !! "prime") /\
    m !! "prime" = color_palette "husl" 6%nat !! 3%nat /\
    m !! "round" = color_palette "husl" 6%nat !! 0%nat /\
    m !! "round_minus_one" = color_palette "husl" 6%nat !! 2%nat.
Proof.
  intros Hlen.
  destruct (category_colors_loaded color_palette Hlen)
    as (c0 & c1 & c2 & c3 & c4 & c5 & Hc & Hm).
  unfold colors in Hc. rewrite Hc, Hm. eexists. split; [reflexivity |].
  split; [apply three_keys_dom |].
  rewrite !lookup_insert_ne, !lookup_insert_eq by done.
  rewrite lookup_insert_ne, lookup_insert_eq by done.
  cbn. eauto.
Qed.

Lemma category_colors_palette_indices_witness :
  length (sample_palette "husl" 6%nat) = 6%nat /\
  exists m,
    category_colors sample_palette = Ok m /\
    dom m = category_labels /\
    is_Some (m !! "prime") /\
    m !! "prime" = sample_palette "husl" 6%nat !! 3%nat /\
    m !! "round" = sample_palette "husl" 6%nat !! 0%nat /\
    m !! "round_minus_one" = sample_palette "husl" 6%nat !! 2%nat.
Proof.
  split; [reflexivity |].
  apply (category_colors_palette_indices sample_palette). reflexivity.
Defined.

(** C5: [category_markers] has exactly the three category labels as keys,
    with "prime" drawn as a star, "round" as a cross and "round_minus_one"
    as a circle; subscripting either mapping with any of the three labels
    returns a value. *)
Theorem category_markers_glyphs
    (color_palette : string -> nat -> list color) :
  length (color_palette "husl" 6%nat) = 6%nat ->
  dom category_markers = category_labels /\
  category_markers !! "prime" = Some "*" /\
  category_markers !! "round" = Some "x" /\
  category_markers !! "round_minus_one" = Some "o" /\
  forall label, label ∈ category_labels ->
    returns (dict_getitem category_markers label) /\
    exists m, category_colors color_palette = Ok m /\
              returns (dict_getitem m label).
Proof.
  intros Hlen. split; [apply three_keys_dom |].
  unfold category_markers.
  split; [rewrite !lookup_insert_ne, lookup_insert_eq by done; reflexivity |].
  split; [rewrite lookup_insert_ne, lookup_insert_eq by done; reflexivity |].
  split; [rewrite lookup_insert_eq; reflexivity |].
  intros label Hin. split.
  - apply dict_getitem_dom. rewrite three_keys_dom. exact Hin.
  - destruct (category_colors_loaded color_palette Hlen)
      as (c0 & c1 & c2 & c3 & c4 & c5 & _ & Hm).
    eexists. split; [exact Hm |].
    apply dict_getitem_dom. rewrite three_keys_dom. exact Hin.
Qed.

Lemma category_markers_glyphs_witness :
  length (sample_palette "husl" 6%nat) = 6%nat /\
  dom category_markers = category_labels /\
  category_markers !! "prime" = Some "*" /\
  category_markers !! "round" = Some "x" /\
  category_markers !! "round_minus_one" = Some "o" /\
  forall label, label ∈ category_labels ->
    returns (dict_getitem category_markers label) /\
    exists m, category_colors sample_palette = Ok m /\
              returns (dict_getitem m label).
Proof.
  split; [reflexivity |].
  apply (category_markers_glyphs sample_palette). reflexivity.
Defined.

(** C6: subscripting either mapping with a string that is not one of the
    three category labels raises [KeyError]; no default is returned. *)
Theorem unknown_label_raises_key_error
    (color_palette : string -> nat -> list color) (label : string) :
  length (color_palette "husl" 6%nat) = 6%nat ->
  label ∉ category_labels ->
  dict_getitem category_markers label = Raise (KeyError label) /\
  exists m, category_colors color_palette = Ok m /\
            dict_getitem m label = Raise (KeyError label).
Proof.
  intros Hlen Hout. split.
  - apply dict_getitem_dom. unfold category_markers.
    rewrite three_keys_dom. exact Hout.
  - destruct (category_colors_loaded color_palette Hlen)
      as (c0 & c1 & c2 & c3 & c4 & c5 & _ & Hm).
    eexists. split; [exact Hm |].
    apply dict_getitem_dom. rewrite three_keys_dom. exact Hout.
Qed.

Lemma unknown_label_raises_key_error_witness :
  length (sample_palette "husl" 6%nat) = 6%nat /\
  ("square" ∉ category_labels) /\
  dict_getitem category_markers "square" = Raise (KeyError "square") /\
  exists m, category_colors sample_palette = Ok m /\
            dict_getitem m "square" = Raise (KeyError "square").
Proof.
  assert ("square" ∉ category_labels) as Hout by (vm_compute; discriminate).
  split; [reflexivity |]. split; [exact Hout |].
  apply (unknown_label_raises_key_error sample_palette "square");
    [reflexivity | exact Hout].
Defined.

(** The configuration after [setup_plotting_style], when the theme is in
    the style library. *)
Lemma setup_plotting_style_run
    (style_library : gmap string rc_params) (sheet rc : rc_params) :
  style_library !! "ggplot" = Some sheet ->
  setup_plotting_style style_library rc
  = Ok (tt, <["font.family" := VStr "serif"]> (<["text.usetex" := VBool true]> ∅)
            ∪ <["figure.dpi" := VNum (PyInt 300)]> (sheet ∪ rc)).
Proof.
  intros Hlib. unfold setup_plotting_style, style_use, mbind, Cfg_bind.
  rewrite Hlib. reflexivity.
Qed.

Lemma setup_plotting_style_missing
    (style_library : gmap string rc_params) (rc : rc_params) :
  style_library !! "ggplot" = None ->
  setup_plotting_style style_library rc = Raise (OSError "ggplot").
Proof.
  intros Hlib. unfold setup_plotting_style, style_use, mbind, Cfg_bind.
  rewrite Hlib. reflexivity.
Qed.

(** C7: [setup_plotting_style] is idempotent on the global configuration:
    from any starting configuration, calling it twice in a row ends in the
    same configuration (or the same error) as calling it once. *)
Theorem setup_plotting_style_idempotent
    (style_library : gmap string rc_params) (rc : rc_params) :
  (setup_plotting_style style_library ≫= fun _ =>
   setup_plotting_style style_library) rc
  = setup_plotting_style style_library rc.
Proof.
  unfold mbind at 1. unfold Cfg_bind.
  destruct (style_library !! "ggplot") as [sheet |] eqn:Hlib.
  - rewrite !(setup_plotting_style_run _ sheet) by exact Hlib.
    do 2 f_equal. apply map_eq. intros k.
    rewrite !lookup_union, !lookup_insert, !lookup_union, !lookup_insert,
      !lookup_union, lookup_empty.
    destruct (sheet !! k), (rc !! k); repeat case_decide; reflexivity.
  - rewrite !setup_plotting_style_missing by exact Hlib. reflexivity.
Qed.



(** C3: [setup_bytes_formatters] always installs [bytes_to_human_readable]
    as the major tick formatter; with [minor] true it installs it as the
    minor tick formatter too, and with [minor] false or left out it
    installs the null formatter, whose labels are empty. Nothing is
    returned. *)
Theorem setup_bytes_formatters_installs (a : axis) :
  setup_bytes_formatters a (Some true)
  = (tt, {| major_formatter := FuncFormatter bytes_to_human_readable;
            minor_formatter := FuncFormatter bytes_to_human_readable |}) /\
  setup_bytes_formatters a (Some false)
  = (tt, {| major_formatter := FuncFormatter bytes_to_human_readable;
            minor_formatter := NullFormatter |}) /\
  setup_bytes_formatters a None = setup_bytes_formatters a (Some false) /\
  (forall x pos, formatter_call NullFormatter x pos = Ok "") /\
  (forall x pos, formatter_call (FuncFormatter bytes_to_human_readable) x pos
                 = bytes_to_human_readable x pos).
Proof. repeat split. Qed.

(** C9: the label does not depend on the position argument: any two
    positions give the same result for the same value. *)
Theorem bytes_label_ignores_position
    (P1 P2 : Type) (x : number) (p1 : P1) (p2 : P2) :
  bytes_to_human_readable x p1 = bytes_to_human_readable x p2.
Proof. reflexivity. Qed.

(** * The claims about the byte-count formatter *)

Lemma overflow_bound_large : 2 ^ 53 < overflow_bound.
Proof.
  unfold overflow_bound. change (2 ^ 1024) with (2 ^ 54 * 2 ^ 970).
  assert (2 ^ 53 <= 2 ^ 970) by (apply Z.pow_le_mono_r; lia).
  change (2 ^ 54) with 18014398509481984 in *.
  change (2 ^ 53) with 9007199254740992 in *. nia.
Qed.

Lemma value_den_pos (x : number) (a d : Z) : value x = Some (a, d) -> 0 < d.
Proof.
  destruct x as [n | [s | s | | s m e]]; cbn [value]; try discriminate.
  - intros [= <- <-]. lia.
  - intros [= <- <-]. lia.
  - pose proof (float_frac_pos m e) as [_ Hd].
    destruct (float_frac m e) as [a' d']. intros [= <- <-]. exact Hd.
Qed.


(** On every non-negative number whose intermediate results are exact the
    formatter computes the specification's rule. *)
Lemma label_exact {P} (pos : P) (x : number) (a d : Z) :
  wf_number x = true -> py_le (PyInt 0) x = true ->
  value x = Some (a, d) -> in_exact_range x = true ->
  bytes_to_human_readable x pos = Ok (zero_sign x +:+ spec_label a d).
Proof.
  intros Hwf Hnn Hval Hrep. destruct x as [n | f].
  - injection Hval as <- <-. cbn [zero_sign]. apply label_int_exact.
    unfold py_le, py_cmp in Hnn. cbn [in_exact_range] in Hrep.
    apply Z.ltb_lt in Hrep.
    destruct (Z.compare_spec 0 n); try discriminate; lia.
  - apply label_float_exact; assumption.
Qed.

Lemma py_lt_negative (x : number) (n : Z) :
  py_lt x (PyInt 0) = true -> 0 <= n -> py_lt x (PyInt n) = true.
Proof.
  intros Hneg Hn. destruct x as [k | [s | s | | s m e]].
  - rewrite py_lt_int in *. apply Z.ltb_lt in Hneg. apply Z.ltb_lt. lia.
  - discriminate.
  - destruct s; [reflexivity | discriminate].
  - discriminate.
  - revert Hneg. unfold py_lt, py_cmp, float_cmp_int.
    assert (0 < 2 ^ (- e) \/ e >= 0) as Hp.
    { destruct (Z.leb_spec 0 e); [right; lia | left].
      apply Z.pow_pos_nonneg; lia. }
    destruct (0 <=? e).
    + destruct (Z.compare_spec (cond_Zopp s (Zpos m) * 2 ^ e) 0); try discriminate.
      intros _. destruct (Z.compare_spec (cond_Zopp s (Zpos m) * 2 ^ e) n);
        [lia | reflexivity | lia].
    + change (0 * 2 ^ (- e)) with 0.
      destruct (Z.compare_spec (cond_Zopp s (Zpos m)) 0); try discriminate.
      intros _. destruct (Z.compare_spec (cond_Zopp s (Zpos m)) (n * 2 ^ (- e)));
        [nia | reflexivity | nia].
Qed.

(** On a [float] the formatter never raises. *)
Lemma label_float_returns {P} (pos : P) (f : spec_float) :
  returns (bytes_to_human_readable (PyFloat f) pos).
Proof.
  unfold bytes_to_human_readable, returns, py_truediv.
  rewrite float_of_int_1024, float_of_int_1024_sq.
  destruct (py_lt (PyFloat f) (PyInt 1024)); [eexists; reflexivity |].
  destruct (py_lt (PyFloat f) (PyInt (1024 ^ 2))); eexists; reflexivity.
Qed.

(** The examples of the specification, on [int]s and on the doubles a
    plot axis passes. *)
Example label_512 :
  bytes_to_human_readable (PyInt 512) tt = Ok "512B" /\
  bytes_to_human_readable (PyFloat f512) (Some 0) = Ok "512B".
Proof. split; vm_compute; reflexivity. Qed.

Example label_2048 : bytes_to_human_readable (PyInt 2048) tt = Ok "2KiB".
Proof. vm_compute. reflexivity. Qed.

Example label_1536 :
  bytes_to_human_readable (PyInt 1536) tt = Ok "2KiB" /\
  bytes_to_human_readable (PyFloat f1536) (Some 1) = Ok "2KiB".
Proof. split; vm_compute; reflexivity. Qed.

Example label_5242880 :
  bytes_to_human_readable (PyInt 5242880) tt = Ok "5MiB" /\
  bytes_to_human_readable (PyFloat f5242880) (Some 2) = Ok "5MiB".
Proof. split; vm_compute; reflexivity. Qed.

Example label_negative_zero :
  bytes_to_human_readable (PyFloat (S754_zero true)) tt = Ok "-0B".
Proof. vm_compute. reflexivity. Qed.

(** Above [2^53] the quotient is rounded to a double before it is
    formatted: the exact quotient of [2^54 + 2^19 + 1] by [1024^2] lies just
    above a half, the double is the half itself, and the tie goes to the
    even integer. *)
Example label_double_rounding :
  bytes_to_human_readable (PyInt (2 ^ 54 + 2 ^ 19 + 1)) tt
  = Ok "17179869184MiB" /\
  round_half_even_div (2 ^ 54 + 2 ^ 19 + 1) (1024 ^ 2) = 17179869185.
Proof. split; vm_compute; reflexivity. Qed.

(** C1, as claimed, fails: a non-negative [int] can be so large that the
    quotient by [1024^2] is beyond every double; the division raises
    instead of returning a label. *)
Lemma threshold_rule_overflow_counterexample :
  py_le (PyInt 0) (PyInt (2 ^ 1044)) = true /\
  py_lt (PyInt (2 ^ 1044)) (PyInt (1024 ^ 2)) = false /\
  bytes_to_human_readable (PyInt (2 ^ 1044)) tt = Raise OverflowError /\
  ~ returns (bytes_to_human_readable (PyInt (2 ^ 1044)) tt).
Proof.
  assert (bytes_to_human_readable (PyInt (2 ^ 1044)) tt = Raise OverflowError)
    as H by (vm_compute; reflexivity).
  repeat split; try (vm_compute; reflexivity).
  intros [s Hs]. rewrite H in Hs. discriminate.
Qed.

(** C1, amended: for every non-negative finite value, well-formed as a
    Python number,
    - a [float], or an [int] below [2^53], is labelled by the three-way
      threshold rule on its exact value: below 1024 the value, below
      [1024^2] the value over 1024, otherwise the value over [1024^2],
      rounded to the nearest integer (ties to even) and followed by "B",
      "KiB" or "MiB" (a negative zero keeps its minus sign);
    - an [int] from [2^53] up to [(2^1024 - 2^970) * 1024^2] is labelled
      "MiB" with the double-precision quotient rounded to the nearest
      integer;
    - an [int] from [(2^1024 - 2^970) * 1024^2] on raises [OverflowError].
    In particular 0, 1023, 1024, [1024^2] and [10 * 1024^2] are labelled
    "0B", "1023B", "1KiB", "1MiB" and "10MiB". *)
Theorem bytes_label_threshold_rule :
  (forall (P : Type) (pos : P) (x : number) (a d : Z),
     wf_number x = true ->
     py_le (PyInt 0) x = true ->
     value x = Some (a, d) ->
     (in_exact_range x = true ->
      bytes_to_human_readable x pos = Ok (zero_sign x +:+ spec_label a d)) /\
     (in_exact_range x = false -> in_float_range x = true ->
      exists m e N,
        py_truediv x (PyInt (1024 ^ 2)) = Ok (S754_finite false m e) /\
        nearest_even (fst (float_frac m e)) (snd (float_frac m e)) N /\
        bytes_to_human_readable x pos = Ok (dec N +:+ "MiB")) /\
     (in_float_range x = false ->
      bytes_to_human_readable x pos = Raise OverflowError)) /\
  (forall (P : Type) (pos : P),
     bytes_to_human_readable (PyInt 0) pos = Ok "0B" /\
     bytes_to_human_readable (PyInt 1023) pos = Ok "1023B" /\
     bytes_to_human_readable (PyInt 1024) pos = Ok "1KiB" /\
     bytes_to_human_readable (PyInt (1024 ^ 2)) pos = Ok "1MiB" /\
     bytes_to_human_readable (PyInt (10 * 1024 ^ 2)) pos = Ok "10MiB").
Proof.
  split; [| intros P pos; repeat split; vm_compute; reflexivity].
  intros P pos x a d Hwf Hnn Hval.
  split; [intros Hrep; apply label_exact; assumption |].
  destruct x as [n | f]; [| split; discriminate].
  cbn [in_exact_range in_float_range].
  assert (0 <= n) as Hn.
  { unfold py_le, py_cmp in Hnn.
    destruct (Z.compare_spec 0 n); try discriminate; lia. }
  pose proof overflow_bound_large as Hob.
  rewrite Z.abs_eq by exact Hn.
  split.
  - intros Hrep Hrange. apply Z.ltb_ge in Hrep.
    apply andb_true_iff in Hrange as [_ Hlt]. apply Z.ltb_lt in Hlt.
    destruct (label_int_large pos n Hrep) as [Hfin _].
    destruct (Hfin Hlt) as (m & e & Hq & Hlab).
    exists m, e, (float_round_half_even m e).
    split; [exact Hq |]. split; [apply float_round_half_even_spec | exact Hlab].
  - intros Hrange. apply andb_false_iff in Hrange as [Hlo | Hhi].
    + apply Z.ltb_ge in Hlo. lia.
    + apply Z.ltb_ge in Hhi.
      assert (2 ^ 53 <= n) as Hbig.
      { change (1024 ^ 2) with 1048576 in Hhi. lia. }
      destruct (label_int_large pos n Hbig) as [_ Hinf]. apply Hinf, Hhi.
Qed.

Lemma bytes_label_threshold_rule_witness :
  wf_number (PyInt 2048) = true /\
  py_le (PyInt 0) (PyInt 2048) = true /\
  value (PyInt 2048) = Some (2048, 1) /\
  in_exact_range (PyInt 2048) = true /\
  bytes_to_human_readable (PyInt 2048) tt
  = Ok (zero_sign (PyInt 2048) +:+ spec_label 2048 1).
Proof.
  do 4 (split; [reflexivity |]).
  exact (proj1 (proj1 bytes_label_threshold_rule unit tt (PyInt 2048) 2048 1
                  eq_refl eq_refl eq_refl) eq_refl).
Defined.



(** C10, as claimed, fails: the formatter raises on a negative [int] too
    large to convert to [float]. *)
Lemma total_on_negatives_counterexample :
  py_lt (PyInt (- 2 ^ 1024)) (PyInt 0) = true /\
  bytes_to_human_readable (PyInt (- 2 ^ 1024)) tt = Raise OverflowError /\
  ~ returns (bytes_to_human_readable (PyInt (- 2 ^ 1024)) tt).
Proof.
  assert (bytes_to_human_readable (PyInt (- 2 ^ 1024)) tt = Raise OverflowError)
    as H by (vm_compute; reflexivity).
  repeat split; try (vm_compute; reflexivity).
  intros [s Hs]. rewrite H in Hs. discriminate.
Qed.

(** C10, amended: the formatter returns a string on every [float],
    negative, infinite and not-a-number ones included, and on every [int]
    strictly between [-(2^1024 - 2^970)] and [(2^1024 - 2^970) * 1024^2];
    on every other [int] it raises [OverflowError]. Every negative value
    takes the first branch: it is formatted to zero decimal places and
    followed by "B"; a negative [int] above [-2^53] is printed exactly, a
    negative finite [float] is rounded to the nearest integer, and -5 is
    labelled "-5B". *)
Theorem bytes_label_total_in_float_range :
  forall (P : Type) (pos : P) (x : number),
    (in_float_range x = true -> returns (bytes_to_human_readable x pos)) /\
    (in_float_range x = false ->
     bytes_to_human_readable x pos = Raise OverflowError) /\
    (py_lt x (PyInt 0) = true ->
     bytes_to_human_readable x pos = (s ← format_0f x; Ok (s +:+ "B"))) /\
    (forall n, x = PyInt n -> - 2 ^ 53 < n < 0 ->
     bytes_to_human_readable x pos = Ok ("-" +:+ dec (- n) +:+ "B")) /\
    (forall s m e, x = PyFloat (S754_finite s m e) ->
     py_lt x (PyInt 0) = true ->
     exists N,
       nearest_even (fst (float_frac m e)) (snd (float_frac m e)) N /\
       bytes_to_human_readable x pos = Ok ("-" +:+ dec N +:+ "B")) /\
    bytes_to_human_readable (PyInt (-5)) pos = Ok "-5B" /\
    bytes_to_human_readable (PyFloat (S754_infinity true)) pos = Ok "-infB" /\
    bytes_to_human_readable (PyFloat (S754_infinity false)) pos = Ok "infMiB" /\
    bytes_to_human_readable (PyFloat S754_nan) pos = Ok "nanMiB".
Proof.
  intros P pos x. pose proof overflow_bound_large as Hob.
  split; [| split; [| split; [| split; [| split]]]];
    [| | | | | repeat split; vm_compute; reflexivity].
  - intros Hrange. destruct x as [n | f]; [| apply label_float_returns].
    cbn [in_float_range] in Hrange.
    apply andb_true_iff in Hrange as [Hlo Hhi].
    apply Z.ltb_lt in Hlo. apply Z.ltb_lt in Hhi.
    destruct (Z.lt_ge_cases n 0) as [Hneg | Hnn].
    + apply (label_int_negative pos n Hneg). exact Hlo.
    + destruct (Z.lt_ge_cases n (2 ^ 53)) as [Hs | Hl].
      * rewrite label_int_exact by lia. eexists; reflexivity.
      * destruct (label_int_large pos n Hl) as [Hfin _].
        destruct (Hfin Hhi) as (m & e & _ & ->). eexists; reflexivity.
  - intros Hrange. destruct x as [n | f]; [| discriminate].
    cbn [in_float_range] in Hrange.
    apply andb_false_iff in Hrange as [Hlo | Hhi].
    + apply Z.ltb_ge in Hlo.
      apply (label_int_negative pos n); lia.
    + apply Z.ltb_ge in Hhi.
      assert (2 ^ 53 <= n) as Hbig.
      { change (1024 ^ 2) with 1048576 in Hhi. lia. }
      apply (label_int_large pos n Hbig). exact Hhi.
  - intros Hneg. unfold bytes_to_human_readable.
    rewrite (py_lt_negative x 1024 Hneg) by lia. reflexivity.
  - intros n -> Hn. apply (label_int_negative pos n); lia.
  - intros s m e -> Hneg. exists (float_round_half_even m e).
    split; [apply float_round_half_even_spec |].
    unfold bytes_to_human_readable.
    rewrite (py_lt_negative _ 1024 Hneg) by lia.
    assert (s = true) as ->.
    { destruct s; [reflexivity | exfalso]. revert Hneg.
      unfold py_lt, py_cmp, float_cmp_int, cond_Zopp.
      destruct (Z.leb_spec 0 e).
      - pow2_pos e.
        destruct (Z.compare_spec (Zpos m * 2 ^ e) 0); try discriminate. nia.
      - discriminate. }
    reflexivity.
Qed.

Lemma bytes_label_total_in_float_range_witness :
  in_float_range (PyInt (-5)) = true /\
  py_lt (PyInt (-5)) (PyInt 0) = true /\
  returns (bytes_to_human_readable (PyInt (-5)) tt) /\
  bytes_to_human_readable (PyInt (-5)) tt
  = (s ← format_0f (PyInt (-5)); Ok (s +:+ "B")).
Proof.
  assert (in_float_range (PyInt (-5)) = true) as Hr by (vm_compute; reflexivity).
  pose proof (bytes_label_total_in_float_range unit tt (PyInt (-5)))
    as (Hret & _ & Hfirst & _).
  split; [exact Hr |]. split; [reflexivity |].
  split; [exact (Hret Hr) | exact (Hfirst eq_refl)].
Defined.

(** * Further properties of the formatter *)

(** Rounding to the nearest integer is monotone in the numerator. *)
Lemma round_half_even_div_mono (a b d : Z) :
  0 < d -> a <= b -> round_half_even_div a d <= round_half_even_div b d.
Proof.
  intros Hd Hab.
  destruct (Z.eq_dec a b) as [-> | Hne]; [lia |].
  destruct (round_half_even_div_spec a d Hd) as [H1 _].
  destruct (round_half_even_div_spec b d Hd) as [H2 _].
  set (n1 := round_half_even_div a d) in *.
  set (n2 := round_half_even_div b d) in *.
  assert (2 * (n1 * d - a) <= d) as U1 by lia.
  assert (2 * (b - n2 * d) <= d) as U2 by lia.
  assert ((n1 - n2) * d < d) as U3 by lia.
  nia.
Qed.

(** It is monotone on fractions with different denominators too. *)
Lemma round_half_even_div_mono_frac (a b d1 d2 : Z) :
  0 < d1 -> 0 < d2 -> a * d2 <= b * d1 ->
  round_half_even_div a d1 <= round_half_even_div b d2.
Proof.
  intros H1 H2 Hab.
  rewrite <- (round_half_even_div_scale a d1 d2),
          <- (round_half_even_div_scale b d2 d1) by lia.
  rewrite (Z.mul_comm d2 d1). apply round_half_even_div_mono; lia.
Qed.

Lemma round_half_even_div_lower (a d lo : Z) :
  0 < d -> lo * d <= a -> lo <= round_half_even_div a d.
Proof.
  intros Hd Hlo. rewrite <- (round_half_even_div_exact lo d Hd).
  apply round_half_even_div_mono; lia.
Qed.

Lemma round_half_even_div_upper (a d hi : Z) :
  0 < d -> a <= hi * d -> round_half_even_div a d <= hi.
Proof.
  intros Hd Hhi. rewrite <- (round_half_even_div_exact hi d Hd).
  apply round_half_even_div_mono; lia.
Qed.

(** The label of the threshold rule is its number followed by its unit. *)
Lemma spec_label_parts (a d : Z) :
  spec_label a d
  = dec (fst (label_parts a d)) +:+ unit_suffix (snd (label_parts a d)).
Proof.
  unfold spec_label, label_parts.
  destruct (a <? 1024 * d); [reflexivity |].
  destruct (a <? 1024 ^ 2 * d); reflexivity.
Qed.

Lemma value_nonneg (x : number) (a d : Z) :
  py_le (PyInt 0) x = true -> value x = Some (a, d) -> 0 <= a.
Proof.
  intros Hnn Hval. destruct x as [n | [s | s | | s m e]]; try discriminate.
  - injection Hval as <- <-. unfold py_le, py_cmp in Hnn.
    destruct (Z.compare_spec 0 n); try discriminate; lia.
  - injection Hval as <- <-. lia.
  - pose proof (nonneg_finite_sign s m e Hnn) as ->.
    pose proof (float_frac_pos m e) as [Ha _]. cbn [value] in Hval.
    destruct (float_frac m e) as [a' d']. injection Hval as <- <-.
    cbn [cond_Zopp fst] in *. lia.
Qed.

(** The label of a number in the exact range, by parts. *)
Lemma label_exact_parts {P} (pos : P) (x : number) (a d : Z) :
  wf_number x = true -> py_le (PyInt 0) x = true ->
  value x = Some (a, d) -> in_exact_range x = true ->
  bytes_to_human_readable x pos
  = Ok (zero_sign x +:+ dec (fst (label_parts a d))
        +:+ unit_suffix (snd (label_parts a d))).
Proof.
  intros Hwf Hnn Hval Hex.
  rewrite (label_exact pos x a d), spec_label_parts by assumption.
  reflexivity.
Qed.

(** X1: labels keep the order of the values. For two non-negative values
    [x <= y], each a float or an int below [2^53], the unit of [x]'s label
    is not larger than the unit of [y]'s, and when the units are the same
    the number shown for [x] is not larger than the number shown for
    [y]. *)
Theorem label_monotone {P : Type} (pos : P) (x y : number) (a b dx dy : Z) :
  wf_number x = true -> wf_number y = true ->
  in_exact_range x = true -> in_exact_range y = true ->
  py_le (PyInt 0) x = true -> py_le (PyInt 0) y = true ->
  value x = Some (a, dx) -> value y = Some (b, dy) ->
  a * dy <= b * dx ->
  exists N M u v,
    label_parts a dx = (N, u) /\ label_parts b dy = (M, v) /\
    bytes_to_human_readable x pos
    = Ok (zero_sign x +:+ dec N +:+ unit_suffix u) /\
    bytes_to_human_readable y pos
    = Ok (zero_sign y +:+ dec M +:+ unit_suffix v) /\
    unit_rank u <= unit_rank v /\
    (u = v -> N <= M).
Proof.
  intros Hwx Hwy Hex Hey Hnx Hny Hvx Hvy Hle.
  pose proof (value_den_pos x a dx Hvx) as Hdx.
  pose proof (value_den_pos y b dy Hvy) as Hdy.
  exists (fst (label_parts a dx)), (fst (label_parts b dy)),
         (snd (label_parts a dx)), (snd (label_parts b dy)).
  split; [apply surjective_pairing |]. split; [apply surjective_pairing |].
  split; [apply label_exact_parts; assumption |].
  split; [apply label_exact_parts; assumption |].
  unfold label_parts.
  change (1024 ^ 2) with 1048576.
  destruct (Z.ltb_spec a (1024 * dx)) as [Ha1 | Ha1];
    destruct (Z.ltb_spec b (1024 * dy)) as [Hb1 | Hb1]; cbn [fst snd unit_rank].
  - split; [lia |]. intros _. apply round_half_even_div_mono_frac; lia.
  - destruct (Z.ltb_spec b (1048576 * dy)); cbn [snd unit_rank];
      (split; [lia | discriminate]).
  - exfalso. nia.
  - destruct (Z.ltb_spec a (1048576 * dx)) as [Ha2 | Ha2];
      destruct (Z.ltb_spec b (1048576 * dy)) as [Hb2 | Hb2];
      cbn [fst snd unit_rank].
    + split; [lia |]. intros _. apply round_half_even_div_mono_frac; nia.
    + split; [lia | discriminate].
    + exfalso. nia.
    + split; [lia |]. intros _. apply round_half_even_div_mono_frac; nia.
Qed.

Lemma label_monotone_witness :
  wf_number (PyInt 1536) = true /\ wf_number (PyFloat f5242880) = true /\
  py_le (PyInt 0) (PyInt 1536) = true /\
  value (PyInt 1536) = Some (1536, 1) /\
  value (PyFloat f5242880) = Some (5 * 2 ^ 50, 2 ^ 30) /\
  1536 * 2 ^ 30 <= 5 * 2 ^ 50 * 1 /\
  exists N M u v,
    label_parts 1536 1 = (N, u) /\ label_parts (5 * 2 ^ 50) (2 ^ 30) = (M, v) /\
    bytes_to_human_readable (PyInt 1536) tt
    = Ok (zero_sign (PyInt 1536) +:+ dec N +:+ unit_suffix u) /\
    bytes_to_human_readable (PyFloat f5242880) tt
    = Ok (zero_sign (PyFloat f5242880) +:+ dec M +:+ unit_suffix v) /\
    unit_rank u <= unit_rank v /\
    (u = v -> N <= M).
Proof.
  do 5 (split; [reflexivity |]).
  assert (1536 * 2 ^ 30 <= 5 * 2 ^ 50 * 1) as Hle by (vm_compute; discriminate).
  split; [exact Hle |].
  exact (label_monotone tt (PyInt 1536) (PyFloat f5242880) 1536 (5 * 2 ^ 50)
           1 (2 ^ 30) eq_refl eq_refl eq_refl eq_refl eq_refl eq_refl
           eq_refl eq_refl Hle).
Defined.

(** X2: the number a label shows is bounded by its unit: at most 1024
    before "B", from 1 to 1024 before "KiB" and at least 1 before "MiB",
    for every non-negative float and every non-negative int below [2^53].
    The bound 1024 is reached: values just below a threshold round up to
    1024 of the smaller unit. *)
Theorem label_number_bounds :
  (forall (P : Type) (pos : P) (x : number) (a d : Z),
     wf_number x = true -> in_exact_range x = true ->
     py_le (PyInt 0) x = true -> value x = Some (a, d) ->
     exists N u,
       label_parts a d = (N, u) /\
       bytes_to_human_readable x pos
       = Ok (zero_sign x +:+ dec N +:+ unit_suffix u) /\
       match u with
       | UnitB => 0 <= N <= 1024
       | UnitKiB => 1 <= N <= 1024
       | UnitMiB => 1 <= N
       end) /\
  (forall (P : Type) (pos : P),
     bytes_to_human_readable (PyFloat f1023_5) pos = Ok "1024B" /\
     bytes_to_human_readable (PyInt (1024 ^ 2 - 1)) pos = Ok "1024KiB").
Proof.
  split; [| intros P pos; split; vm_compute; reflexivity].
  intros P pos x a d Hwf Hex Hnn Hval.
  pose proof (value_den_pos x a d Hval) as Hd.
  pose proof (value_nonneg x a d Hnn Hval) as Ha.
  exists (fst (label_parts a d)), (snd (label_parts a d)).
  split; [apply surjective_pairing |].
  split; [apply label_exact_parts; assumption |].
  unfold label_parts. change (1024 ^ 2) with 1048576.
  destruct (Z.ltb_spec a (1024 * d)) as [H1 | H1]; cbn [fst snd].
  - split; [apply round_half_even_div_lower | apply round_half_even_div_upper];
      lia.
  - destruct (Z.ltb_spec a (1048576 * d)) as [H2 | H2]; cbn [fst snd].
    + split; [apply round_half_even_div_lower | apply round_half_even_div_upper];
        lia.
    + apply round_half_even_div_lower; lia.
Qed.

Lemma label_number_bounds_witness :
  wf_number (PyFloat f1023_5) = true /\
  in_exact_range (PyFloat f1023_5) = true /\
  py_le (PyInt 0) (PyFloat f1023_5) = true /\
  value (PyFloat f1023_5) = Some (2047 * 2 ^ 42, 2 ^ 43) /\
  exists N u,
    label_parts (2047 * 2 ^ 42) (2 ^ 43) = (N, u) /\
    bytes_to_human_readable (PyFloat f1023_5) tt
    = Ok (zero_sign (PyFloat f1023_5) +:+ dec N +:+ unit_suffix u) /\
    match u with
    | UnitB => 0 <= N <= 1024
    | UnitKiB => 1 <= N <= 1024
    | UnitMiB => 1 <= N
    end.
Proof.
  do 4 (split; [reflexivity |]).
  exact (proj1 label_number_bounds unit tt (PyFloat f1023_5)
           (2047 * 2 ^ 42) (2 ^ 43) eq_refl eq_refl eq_refl eq_refl).
Defined.

(** ** Whole units *)

(** Dividing [K * 2^k] by [2^k] is exact for every [K] a double holds,
    however long the dividend. *)
Lemma int_div_pow2_multiple (p dv : positive) (k K : Z) :
  1 <= k <= 1000 -> Zpos dv = 2 ^ k ->
  0 < K < 2 ^ 53 -> Zpos p = K * 2 ^ k ->
  exists m e,
    SFdiv 53 1024 (S754_finite false p 0) (S754_finite false dv 0)
    = S754_finite false m e /\
    -52 <= e <= 0 /\ Zpos m = K * 2 ^ (- e).
Proof.
  intros Hk Hdv [HK0 HK] Hp. unfold SFdiv.
  pose proof (SFdiv_core_eq (Zpos p) 0 (Zpos dv) 0) as Hcore. cbn zeta in Hcore.
  cbn [Zdigits2] in Hcore. rewrite (digits_dv dv k Hk Hdv), fexp64 in Hcore.
  destruct K as [| Kp |]; try lia.
  pose proof (digits2_pos_bounds Kp) as [Blo Bhi].
  rewrite (digits2_pos_shift Kp p k) in Hcore by (try assumption; lia).
  set (d := Zpos (digits2_pos Kp)) in *.
  assert (1 <= d <= 53) as Hd.
  { split; [unfold d; lia |].
    destruct (Z.leb_spec d 53) as [| Hgt]; [assumption | exfalso].
    assert (2 ^ 53 <= 2 ^ (d - 1)) by (apply Z.pow_le_mono_r; lia). lia. }
  replace (Z.min (Z.max (d + k + 0 - (k + 1 + 0) - 53) (-1074)) (0 - 0))
    with (d - 54) in Hcore by lia.
  replace (0 - 0 - (d - 54)) with (54 - d) in Hcore by lia.
  rewrite Hcore. clear Hcore.
  set (lz := new_location _ _). clearbody lz.
  pow2_pos k as H2k.
  pow2_pos (53 - d) as H2d.
  assert (Zpos p * 2 ^ (54 - d) / Zpos dv = Zpos Kp * 2 ^ (53 - d) * 2) as Hq.
  { rewrite Hp, Hdv.
    replace (Zpos Kp * 2 ^ k * 2 ^ (54 - d))
      with (Zpos Kp * 2 ^ (54 - d) * 2 ^ k) by lia.
    rewrite Z.div_mul by lia.
    replace (54 - d) with (Z.succ (53 - d)) by lia.
    rewrite Z.pow_succ_r by lia. lia. }
  rewrite Hq. clear Hq.
  set (M := Zpos Kp * 2 ^ (53 - d)).
  assert (2 ^ 52 <= M < 2 ^ 53) as HM.
  { unfold M. split.
    - replace 52 with (d - 1 + (53 - d)) by lia. rewrite Z.pow_add_r by lia.
      apply Z.mul_le_mono_nonneg_r; lia.
    - replace 53 with (d + (53 - d)) at 2 by lia. rewrite Z.pow_add_r by lia.
      apply Z.mul_lt_mono_pos_r; lia. }
  change (2 ^ 52) with 4503599627370496 in HM.
  change (2 ^ 53) with 9007199254740992 in HM.
  destruct M as [| Mp |] eqn:EM; try lia.
  replace (Zpos Mp * 2) with (Zpos (Mp~0)) by lia.
  cbn [xorb].
  destruct (round_shift false (Mp~0) (d - 54) 1 lz) as (M' & _ & HM'f & _ & Hres).
  { cbn [digits2_pos]. rewrite Pos2Z.inj_succ.
    rewrite (digits2_pos_unique Mp 53); [lia |].
    change (2 ^ (53 - 1)) with 4503599627370496.
    change (2 ^ 53) with 9007199254740992. lia. }
  { lia. }
  { lia. }
  cbn zeta in *. rewrite Hres.
  rewrite HM'f by reflexivity.
  change (2 ^ 1) with 2. rewrite Pos2Z.inj_xO, Z.mul_comm, Z.div_mul by lia.
  change (2 ^ 53) with 9007199254740992.
  rewrite (proj2 (Z.ltb_lt _ _)), (proj2 (Z.leb_le _ _)) by lia.
  exists Mp, (d - 54 + 1). cbn [Z.to_pos].
  repeat split; try lia.
  rewrite <- EM. unfold M. f_equal. f_equal. lia.
Qed.

Lemma int_true_divide_multiple (K k : Z) :
  1 <= k <= 1000 -> 0 < K < 2 ^ 53 ->
  exists m e, int_true_divide (K * 2 ^ k) (2 ^ k) = Ok (S754_finite false m e) /\
              -52 <= e <= 0 /\ Zpos m = K * 2 ^ (- e).
Proof.
  intros Hk HK. unfold int_true_divide, prec, emax.
  pow2_pos k as H2k.
  rewrite (proj2 (Z.eqb_neq _ _)) by lia.
  destruct (K * 2 ^ k) as [| p |] eqn:Ep; try nia.
  destruct (2 ^ k) as [| dv |] eqn:Edv; try lia.
  cbn [int_as_ratio].
  destruct (int_div_pow2_multiple p dv k K Hk (eq_sym Edv) HK) as (m & e & -> & H);
    [rewrite Edv; exact (eq_sym Ep) |].
  exists m, e. split; [reflexivity | exact H].
Qed.

(** X3: whole units are shown exactly. An int below 1024 is labelled with
    its own digits and "B"; [K * 1024] with [1 <= K < 1024] is labelled
    [K] "KiB"; [K * 1024^2] is labelled [K] "MiB" for every [K] from 1 up
    to [2^53], beyond the range in which every int is a double. *)
Theorem label_whole_units {P : Type} (pos : P) (K : Z) :
  (0 <= K < 1024 ->
   bytes_to_human_readable (PyInt K) pos = Ok (dec K +:+ "B")) /\
  (1 <= K < 1024 ->
   bytes_to_human_readable (PyInt (K * 1024)) pos = Ok (dec K +:+ "KiB")) /\
  (1 <= K < 2 ^ 53 ->
   bytes_to_human_readable (PyInt (K * 1024 ^ 2)) pos = Ok (dec K +:+ "MiB")).
Proof.
  change (2 ^ 53) with 9007199254740992.
  split; [| split]; intros HK.
  - rewrite label_int_exact by (change (2 ^ 53) with 9007199254740992; lia).
    unfold spec_label. rewrite (proj2 (Z.ltb_lt _ _)) by lia.
    rewrite round_half_even_div_1. reflexivity.
  - unfold bytes_to_human_readable. rewrite !py_lt_int.
    rewrite (proj2 (Z.ltb_ge _ _)) by lia.
    rewrite (proj2 (Z.ltb_lt _ _)) by (change (1024 ^ 2) with 1048576; lia).
    unfold py_truediv. change 1024 with (2 ^ 10).
    destruct (int_true_divide_multiple K 10 ltac:(lia)) as (m & e & -> & He & Hm);
      [change (2 ^ 53) with 9007199254740992; lia |].
    cbn [mbind result_bind format_0f format_float_0f sign_str].
    rewrite (float_round_half_even_int m e K) by lia. reflexivity.
  - unfold bytes_to_human_readable. rewrite !py_lt_int.
    change (1024 ^ 2) with 1048576.
    rewrite !(proj2 (Z.ltb_ge _ _)) by lia.
    unfold py_truediv. change 1048576 with (2 ^ 20).
    destruct (int_true_divide_multiple K 20 ltac:(lia)) as (m & e & -> & He & Hm);
      [change (2 ^ 53) with 9007199254740992; lia |].
    cbn [mbind result_bind format_0f format_float_0f sign_str].
    rewrite (float_round_half_even_int m e K) by lia. reflexivity.
Qed.

Lemma label_whole_units_witness :
  1 <= 2 ^ 52 + 1 < 2 ^ 53 /\
  bytes_to_human_readable (PyInt ((2 ^ 52 + 1) * 1024 ^ 2)) tt
  = Ok (dec (2 ^ 52 + 1) +:+ "MiB").
Proof.
  assert (1 <= 2 ^ 52 + 1 < 2 ^ 53) as HK
    by (vm_compute; split; [discriminate | reflexivity]).
  split; [exact HK |].
  exact (proj2 (proj2 (label_whole_units tt (2 ^ 52 + 1))) HK).
Defined.

(** ** Integers and the doubles that hold them *)

(** The threshold rule depends on the value only, not on the fraction
    that denotes it. *)
Lemma spec_label_scale (a d c : Z) :
  0 < d -> 0 < c -> spec_label (a * c) (d * c) = spec_label a d.
Proof.
  intros Hd Hc. unfold spec_label. change (1024 ^ 2) with 1048576.
  replace (1024 * (d * c)) with (1024 * d * c) by lia.
  replace (1048576 * (d * c)) with (1048576 * d * c) by lia.
  rewrite !round_half_even_div_scale by lia.
  destruct (Z.ltb_spec (a * c) (1024 * d * c)), (Z.ltb_spec a (1024 * d));
    try nia; [reflexivity |].
  destruct (Z.ltb_spec (a * c) (1048576 * d * c)), (Z.ltb_spec a (1048576 * d));
    try nia; reflexivity.
Qed.

Lemma py_le_zero_pos_float (m : positive) (e : Z) :
  py_le (PyInt 0) (PyFloat (S754_finite false m e)) = true.
Proof.
  unfold py_le, py_cmp, float_cmp_int, cond_Zopp.
  cbn [fmap option_fmap option_map].
  assert ((if 0 <=? e then Zpos m * 2 ^ e ?= 0 else Zpos m ?= 0 * 2 ^ (- e)) = Gt)
    as ->; [| reflexivity].
  destruct (Z.leb_spec 0 e).
  - apply Z.compare_gt_iff. pow2_pos e. nia.
  - reflexivity.
Qed.

Lemma py_lt_neg_float (m : positive) (e : Z) :
  py_lt (PyFloat (S754_finite true m e)) (PyInt 0) = true.
Proof.
  unfold py_lt, py_cmp, float_cmp_int, cond_Zopp.
  assert ((if 0 <=? e then - Zpos m * 2 ^ e ?= 0 else - Zpos m ?= 0 * 2 ^ (- e)) = Lt)
    as ->; [| reflexivity].
  destruct (Z.leb_spec 0 e).
  - apply Z.compare_lt_iff. pow2_pos e. nia.
  - reflexivity.
Qed.

(** X4: an int and the double that holds it are labelled alike. For every
    int of magnitude below [2^53], negative ones included, [float(n)]
    returns a well-formed double, and the formatter gives the same label
    for the int as for that double. *)
Theorem label_int_float_agree {P : Type} (pos : P) (n : Z) :
  Z.abs n < 2 ^ 53 ->
  exists f,
    float_of_int n = Ok f /\
    wf_number (PyFloat f) = true /\
    bytes_to_human_readable (PyInt n) pos
    = bytes_to_human_readable (PyFloat f) pos.
Proof.
  intros Hn.
  destruct (Z.eq_dec n 0) as [-> | Hn0].
  { exists (S754_zero false). repeat split. }
  destruct (float_of_int_exact n Hn0 Hn) as (m & e & Hf & He & Hm & Hd).
  exists (S754_finite (n <? 0) m e). split; [exact Hf |].
  assert (valid_binary prec emax (S754_finite (n <? 0) m e) = true) as Hv.
  { unfold valid_binary, bounded, canonical_mantissa, prec, emax.
    rewrite Hd, fexp64. apply andb_true_iff.
    split; [apply Z.eqb_eq | apply Z.leb_le]; lia. }
  split; [exact Hv |].
  pow2_pos (- e) as H2e.
  destruct (Z.ltb_spec n 0) as [Hneg | Hpos].
  - destruct (label_int_negative pos n Hneg) as [Hlab _].
    rewrite Hlab by (change (2 ^ 53) with 9007199254740992 in *; lia).
    unfold bytes_to_human_readable.
    rewrite (py_lt_negative _ 1024 (py_lt_neg_float m e)) by lia.
    cbn [format_0f mbind result_bind format_float_0f sign_str].
    rewrite (float_round_half_even_int m e (- n)) by lia. reflexivity.
  - rewrite label_int_exact by lia.
    assert (value (PyFloat (S754_finite false m e))
            = Some (n * snd (float_frac m e), 1 * snd (float_frac m e))) as Hval.
    { cbn [value]. unfold float_frac.
      destruct (Z.leb_spec 0 e); cbn [cond_Zopp snd].
      - assert (e = 0) as -> by lia. change (- 0) with 0 in Hm.
        rewrite Hm. do 2 f_equal; lia.
      - rewrite Hm. do 2 f_equal; lia. }
    pose proof (float_frac_pos m e) as [_ Hdpos].
    rewrite (label_float_exact pos _ _ _ Hv (py_le_zero_pos_float m e) Hval).
    rewrite spec_label_scale by lia. reflexivity.
Qed.

Lemma label_int_float_agree_witness :
  Z.abs (-1536) < 2 ^ 53 /\
  exists f,
    float_of_int (-1536) = Ok f /\
    wf_number (PyFloat f) = true /\
    bytes_to_human_readable (PyInt (-1536)) tt
    = bytes_to_human_readable (PyFloat f) tt.
Proof.
  assert (Z.abs (-1536) < 2 ^ 53) as H by (vm_compute; reflexivity).
  split; [exact H |].
  exact (label_int_float_agree tt (-1536) H).
Defined.

(** * Further properties of the palettes, the style and the axis *)

(** A subscript with a non-negative index is a plain lookup. *)
Lemma list_getitem_nonneg {A} (l : list A) (i : Z) :
  0 <= i ->
  list_getitem l i = match l !! Z.to_nat i with
                     | Some a => Ok a
                     | None => Raise IndexError
                     end.
Proof.
  intros Hi. unfold list_getitem.
  rewrite (proj2 (Z.ltb_ge i 0)) by lia.
  destruct (Z.leb_spec 0 i); [| lia].
  destruct (Z.ltb_spec i (Z.of_nat (length l))) as [Hlt | Hge]; cbn [andb].
  - reflexivity.
  - rewrite (lookup_ge_None_2 l (Z.to_nat i)) by lia. reflexivity.
Qed.

(** X5: the module loads exactly when the palette generator yields at
    least four colours, since the highest index subscripted is 3: then
    [category_colors] has the three labels as keys; with fewer colours the
    dictionary display raises [IndexError]. *)
Theorem category_colors_needs_four
    (color_palette : string -> nat -> list color) :
  ((4 <= length (color_palette "husl" 6%nat))%nat ->
   exists m, category_colors color_palette = Ok m /\
             dom m = category_labels) /\
  ((length (color_palette "husl" 6%nat) < 4)%nat ->
   category_colors color_palette = Raise IndexError).
Proof.
  unfold category_colors, colors.
  rewrite !list_getitem_nonneg by lia.
  destruct (color_palette "husl" 6%nat) as [| c0 [| c1 [| c2 [| c3 l]]]];
    cbn [length]; (split; intros Hlen; [try lia | try lia; try reflexivity]).
  eexists. split; [reflexivity | apply three_keys_dom].
Qed.

Lemma category_colors_needs_four_witness :
  ((4 <= length (sample_palette "husl" 6%nat))%nat /\
   exists m, category_colors sample_palette = Ok m /\
             dom m = category_labels) /\
  ((length (short_palette "husl" 6%nat) < 4)%nat /\
   category_colors short_palette = Raise IndexError).
Proof.
  assert (4 <= length (sample_palette "husl" 6%nat))%nat as H4
    by (vm_compute; lia).
  assert (length (short_palette "husl" 6%nat) < 4)%nat as H3
    by (vm_compute; lia).
  split.
  - split; [exact H4 |].
    exact (proj1 (category_colors_needs_four sample_palette) H4).
  - split; [exact H3 |].
    exact (proj2 (category_colors_needs_four short_palette) H3).
Defined.

(** X6: the categories can be told apart. No two labels share a marker,
    and when the palette holds no colour twice no two labels share a
    colour: the three subscripts 3, 0 and 2 are distinct. *)
Theorem categories_distinguishable
    (color_palette : string -> nat -> list color) :
  (4 <= length (color_palette "husl" 6%nat))%nat ->
  NoDup (color_palette "husl" 6%nat) ->
  (exists m, category_colors color_palette = Ok m /\
     forall l1 l2 c, m !! l1 = Some c -> m !! l2 = Some c -> l1 = l2) /\
  (forall l1 l2 g, category_markers !! l1 = Some g ->
                   category_markers !! l2 = Some g -> l1 = l2).
Proof.
  intros Hlen Hnd. split.
  - unfold category_colors, colors.
    rewrite !list_getitem_nonneg by lia.
    destruct (color_palette "husl" 6%nat) as [| c0 [| c1 [| c2 [| c3 l]]]];
      cbn [length] in Hlen; try lia.
    assert (c0 <> c2) as H02.
    { intros ->. pose proof (NoDup_lookup _ 0%nat 2%nat c2 Hnd eq_refl eq_refl).
      discriminate. }
    assert (c0 <> c3) as H03.
    { intros ->. pose proof (NoDup_lookup _ 0%nat 3%nat c3 Hnd eq_refl eq_refl).
      discriminate. }
    assert (c2 <> c3) as H23.
    { intros ->. pose proof (NoDup_lookup _ 2%nat 3%nat c3 Hnd eq_refl eq_refl).
      discriminate. }
    eexists. split; [reflexivity |].
    intros l1 l2 c H1 H2.
    rewrite !lookup_insert, lookup_empty in H1, H2.
    repeat case_decide; simplify_eq; congruence.
  - intros l1 l2 g H1 H2. unfold category_markers in H1, H2.
    rewrite !lookup_insert, lookup_empty in H1, H2.
    repeat case_decide; simplify_eq; congruence.
Qed.

Lemma sample_palette_NoDup : NoDup (sample_palette "husl" 6%nat).
Proof.
  unfold sample_palette. cbn [seq fmap list_fmap].
  repeat (apply NoDup_cons_2;
          [rewrite ?elem_of_cons, elem_of_nil; intuition discriminate |]).
  apply NoDup_nil_2.
Qed.

Lemma categories_distinguishable_witness :
  (4 <= length (sample_palette "husl" 6%nat))%nat /\
  NoDup (sample_palette "husl" 6%nat) /\
  (exists m, category_colors sample_palette = Ok m /\
     forall l1 l2 c, m !! l1 = Some c -> m !! l2 = Some c -> l1 = l2) /\
  (forall l1 l2 g, category_markers !! l1 = Some g ->
                   category_markers !! l2 = Some g -> l1 = l2).
Proof.
  assert (4 <= length (sample_palette "husl" 6%nat))%nat as H4
    by (vm_compute; lia).
  split; [exact H4 |]. split; [exact sample_palette_NoDup |].
  exact (categories_distinguishable sample_palette H4 sample_palette_NoDup).
Defined.

(** X7: what [setup_plotting_style] overwrites and what it leaves alone.
    With the theme in the style library, an entry the theme holds, or one
    of the three the procedure writes itself, is lost: setting it before
    the call changes nothing. Any other entry passes through: setting it
    before the call or after it gives the same configuration. *)
Theorem setup_plotting_style_frame
    (style_library : gmap string rc_params) (sheet rc : rc_params)
    (k : string) (v : rcvalue) :
  style_library !! "ggplot" = Some sheet ->
  (k ∈ dom sheet ∪ style_keys ->
   setup_plotting_style style_library (<[k := v]> rc)
   = setup_plotting_style style_library rc) /\
  (k ∉ dom sheet ∪ style_keys ->
   exists rc',
     setup_plotting_style style_library rc = Ok (tt, rc') /\
     setup_plotting_style style_library (<[k := v]> rc)
     = Ok (tt, <[k := v]> rc')).
Proof.
  intros Hlib. rewrite !(setup_plotting_style_run _ sheet) by exact Hlib.
  unfold style_keys.
  rewrite !elem_of_union, !elem_of_singleton, elem_of_dom.
  split.
  - intros Hin. do 2 f_equal. apply map_eq. intros j.
    repeat (rewrite lookup_union || rewrite lookup_insert).
    rewrite ?lookup_empty.
    repeat case_decide; subst; rewrite ?union_Some_l; try reflexivity.
    destruct Hin as [[x Hx] | [[? | ?] | ?]]; try congruence.
    rewrite Hx, !union_Some_l. reflexivity.
  - intros Hout. eexists. split; [reflexivity |].
    do 2 f_equal. apply map_eq. intros j.
    repeat (rewrite lookup_union || rewrite lookup_insert).
    rewrite ?lookup_empty.
    repeat case_decide; subst; rewrite ?union_Some_l; try reflexivity.
    all: try (exfalso; apply Hout; tauto).
    destruct (sheet !! j) eqn:E; [| reflexivity].
    exfalso. apply Hout. left. eauto.
Qed.

Lemma setup_plotting_style_frame_witness :
  sample_style_library !! "ggplot" = Some {[ "axes.grid" := VBool true ]} /\
  ("axes.grid" ∈ dom ({[ "axes.grid" := VBool true ]} : rc_params) ∪ style_keys) /\
  setup_plotting_style sample_style_library (<["axes.grid" := VBool false]> ∅)
  = setup_plotting_style sample_style_library ∅ /\
  ("lines.linewidth" ∉ dom ({[ "axes.grid" := VBool true ]} : rc_params) ∪ style_keys) /\
  exists rc',
    setup_plotting_style sample_style_library ∅ = Ok (tt, rc') /\
    setup_plotting_style sample_style_library
      (<["lines.linewidth" := VNum (PyInt 2)]> ∅)
    = Ok (tt, <["lines.linewidth" := VNum (PyInt 2)]> rc').
Proof.
  assert (sample_style_library !! "ggplot" = Some {[ "axes.grid" := VBool true ]})
    as Hlib by reflexivity.
  assert ("axes.grid" ∈ dom ({[ "axes.grid" := VBool true ]} : rc_params) ∪ style_keys)
    as Hin by (vm_compute; reflexivity).
  assert ("lines.linewidth"
          ∉ dom ({[ "axes.grid" := VBool true ]} : rc_params) ∪ style_keys)
    as Hout by (vm_compute; discriminate).
  split; [exact Hlib |]. split; [exact Hin |].
  split; [exact (proj1 (setup_plotting_style_frame sample_style_library _ ∅
                          "axes.grid" (VBool false) Hlib) Hin) |].
  split; [exact Hout |].
  exact (proj2 (setup_plotting_style_frame sample_style_library _ ∅
                  "lines.linewidth" (VNum (PyInt 2)) Hlib) Hout).
Defined.



(** X9: the last call of [setup_bytes_formatters] wins. Whatever
    formatters an earlier call installed, with [minor] set or not, a second
    call leaves the axis as a single call with the second argument would;
    in particular the procedure is idempotent. *)
Theorem setup_bytes_formatters_last_wins (a : axis) (m1 m2 : option bool) :
  setup_bytes_formatters (snd (setup_bytes_formatters a m1)) m2
  = setup_bytes_formatters a m2.
Proof.
  destruct a as [maj mnr], m1 as [[|] |], m2 as [[|] |]; reflexivity.
Qed.

(** X10: labelling the ticks of a configured axis never fails. After
    [setup_bytes_formatters], with [minor] set or not, the major and the
    minor formatter return a label for every float tick value, infinite
    and not-a-number ones included. *)
Theorem axis_labels_never_raise
    (a : axis) (minor : option bool) (f : spec_float) (pos : option Z) :
  returns (formatter_call
             (major_formatter (snd (setup_bytes_formatters a minor)))
             (PyFloat f) pos) /\
  returns (formatter_call
             (minor_formatter (snd (setup_bytes_formatters a minor)))
             (PyFloat f) pos).
Proof.
  destruct minor as [[|] |]; cbn [setup_bytes_formatters default
    set_major_formatter set_minor_formatter snd major_formatter
    minor_formatter formatter_call];
    split; try apply label_float_returns; eexists; reflexivity.
Qed.
